(** * Exercise Tracker: the HTTP handlers over a document store

    A shallow embedding of the Express handlers of the exercise tracker
    (both copies of the server file) and of the Mongoose schema they use,
    with the properties of the API contract proved or refuted on them.

    Conventions of the model.
    - A request field (body, query) is [option string]: absent, or the
      string that the urlencoded body parser and the query parser deliver.
    - A JavaScript string is a [string] whose characters are code units
      below 256.
    - A JavaScript number is [number]: NaN, an infinity, or an exact
      rational; IEEE rounding and the sign of zero are left out.
    - A handler runs in the monad [IO]: it threads the collection, records
      every call made to the store, and may throw; the [try]/[catch] of
      the source turns a throw into a 500 response. *)

From Stdlib Require Import ZArith QArith Ascii String List Lia Bool.
From stdpp Require Import base option list gmap strings.

Close Scope Q_scope.
Open Scope string_scope.
Open Scope Z_scope.

(** ** The JavaScript built-ins the handlers call *)

Module JS.

(** WhiteSpace and LineTerminator code units below 256: TAB, LF, VT, FF,
    CR, SP and NBSP. *)
Definition is_ws (c : ascii) : bool :=
  match N_of_ascii c with
  | 9 | 10 | 11 | 12 | 13 | 32 | 160 => true
  | _ => false
  end%N.

Fixpoint trimStart_l (l : list ascii) : list ascii :=
  match l with
  | c :: r => if is_ws c then trimStart_l r else l
  | [] => []
  end.

Definition trimEnd_l (l : list ascii) : list ascii :=
  rev (trimStart_l (rev l)).

(** [String.prototype.trim]. *)
Definition trim (s : string) : string :=
  string_of_list_ascii (trimEnd_l (trimStart_l (list_ascii_of_string s))).

(** ToBoolean on a request field: [undefined] and the empty string are
    falsy, every other string is truthy. *)
Definition truthy (v : option string) : bool :=
  match v with
  | None => false
  | Some s => negb (String.eqb s "")
  end.

(** Numbers. *)
Inductive number : Type :=
  | NaN
  | Infinity (negative : bool)
  | Fin (q : Q).

Definition of_Z (z : Z) : number := Fin (inject_Z z).

Definition isNaN (n : number) : bool :=
  match n with NaN => true | _ => false end.

(** A number is an integer when it is finite and its denominator divides
    its numerator. *)
Definition is_integer (n : number) : bool :=
  match n with
  | Fin q => Qnum q mod Z.pos (Qden q) =? 0
  | _ => false
  end.

(** The value of a digit in a radix up to 36. *)
Definition digit_val (radix : Z) (c : ascii) : option Z :=
  let n := Z.of_N (N_of_ascii c) in
  let v := if (48 <=? n) && (n <=? 57) then n - 48
           else if (97 <=? n) && (n <=? 122) then n - 87
           else if (65 <=? n) && (n <=? 90) then n - 55
           else 36 in
  if v <? radix then Some v else None.

(** The longest prefix of digits, and what follows it. *)
Fixpoint span_digits (radix : Z) (l : list ascii) : list Z * list ascii :=
  match l with
  | c :: r =>
      match digit_val radix c with
      | Some v => let '(ds, rest) := span_digits radix r in (v :: ds, rest)
      | None => ([], l)
      end
  | [] => ([], [])
  end.

Definition digits_value (radix : Z) (ds : list Z) : Z :=
  fold_left (fun acc d => acc * radix + d) ds 0.

(** [parseInt(string)] with no radix argument. *)
Definition parseInt (s : string) : number :=
  let str := trimStart_l (list_ascii_of_string s) in
  let '(sign, str) :=
    match str with
    | "-"%char :: r => (-1, r)
    | "+"%char :: r => (1, r)
    | _ => (1, str)
    end in
  let '(R, str) :=
    match str with
    | "0"%char :: "x"%char :: r => (16, r)
    | "0"%char :: "X"%char :: r => (16, r)
    | _ => (10, str)
    end in
  match fst (span_digits R str) with
  | [] => NaN
  | ds => of_Z (sign * digits_value R ds)
  end.

Definition neg (n : number) : number :=
  match n with
  | NaN => NaN
  | Infinity b => Infinity (negb b)
  | Fin q => Fin (Qred (Qopp q))
  end.

(** Ten to the power [e], for an exponent of either sign. *)
Definition ten_pow (e : Z) : Q :=
  if 0 <=? e then inject_Z (10 ^ e) else Qmake 1 (Z.to_pos (10 ^ (- e))).

(** A string that is digits of the radix throughout, and not empty. *)
Definition all_digits (radix : Z) (l : list ascii) : option Z :=
  match span_digits radix l with
  | (d :: ds, []) => Some (digits_value radix (d :: ds))
  | _ => None
  end.

(** ExponentPart, or nothing, up to the end of the literal. *)
Definition exponent_part (l : list ascii) : option Z :=
  let signed r :=
    match r with
    | "-"%char :: r' => (fun v => - v) <$> all_digits 10 r'
    | "+"%char :: r' => all_digits 10 r'
    | _ => all_digits 10 r
    end in
  match l with
  | [] => Some 0
  | "e"%char :: r => signed r
  | "E"%char :: r => signed r
  | _ => None
  end.

(** StrUnsignedDecimalLiteral. *)
Definition unsigned_decimal (l : list ascii) : number :=
  if String.eqb (string_of_list_ascii l) "Infinity" then Infinity false
  else
    let '(ip, r) := span_digits 10 l in
    let '(fp, r) :=
      match r with
      | "."%char :: r' => span_digits 10 r'
      | _ => ([], r)
      end in
    match (ip ++ fp)%list, exponent_part r with
    | d :: ds, Some e =>
        Fin (Qred (Qmult (inject_Z (digits_value 10 (d :: ds)))
                         (ten_pow (e - Z.of_nat (length fp)))))
    | _, _ => NaN
    end.

(** [Number(string)]: StringToNumber. *)
Definition Number (s : string) : number :=
  let str := trimEnd_l (trimStart_l (list_ascii_of_string s)) in
  let radix_literal radix r :=
    match all_digits radix r with
    | Some v => of_Z v
    | None => NaN
    end in
  match str with
  | [] => of_Z 0
  | "0"%char :: "x"%char :: r => radix_literal 16 r
  | "0"%char :: "X"%char :: r => radix_literal 16 r
  | "0"%char :: "o"%char :: r => radix_literal 8 r
  | "0"%char :: "O"%char :: r => radix_literal 8 r
  | "0"%char :: "b"%char :: r => radix_literal 2 r
  | "0"%char :: "B"%char :: r => radix_literal 2 r
  | "-"%char :: r => neg (unsigned_decimal r)
  | "+"%char :: r => unsigned_decimal r
  | _ => unsigned_decimal str
  end.

(** The integer part of a rational, rounding towards zero. *)
Definition truncate (q : Q) : Z := Z.quot (Qnum q) (Z.pos (Qden q)).

(** [array.slice(0, end)]: the end index goes through ToIntegerOrInfinity
    (NaN becomes 0), a negative one counts from the end of the array, and
    the result is clamped to the array. *)
Definition slice0 {A : Type} (l : list A) (end_ : number) : list A :=
  let len := Z.of_nat (length l) in
  let final :=
    match end_ with
    | NaN => 0
    | Infinity true => 0
    | Infinity false => len
    | Fin q =>
        let relativeEnd := truncate q in
        if relativeEnd <? 0 then Z.max (len + relativeEnd) 0
        else Z.min relativeEnd len
    end in
  firstn (Z.to_nat final) l.

(** A Date object: its time value is an integer number of milliseconds
    since the epoch, or NaN (an invalid date). *)
Inductive Date : Type :=
  | InvalidDate
  | DateOf (tv : Z).

Definition getTime (d : Date) : number :=
  match d with
  | InvalidDate => NaN
  | DateOf tv => of_Z tv
  end.

(** [a >= b] and [a <= b] on Date objects: both sides are converted to
    their time values, and a comparison with NaN is false. *)
Definition ge (a b : Date) : bool :=
  match a, b with
  | DateOf x, DateOf y => y <=? x
  | _, _ => false
  end.

Definition le (a b : Date) : bool :=
  match a, b with
  | DateOf x, DateOf y => x <=? y
  | _, _ => false
  end.

End JS.

(** ** What the platform supplies

    The functions of the runtime and of the driver whose results the
    handlers only pass on. *)

Definition ObjectId : Type := N.

Class Runtime : Type := {
  (** the ObjectId a string denotes, when [ObjectId.isValid] holds of it *)
  castObjectId : string -> option ObjectId;
  (** [ObjectId.prototype.toString]: the hexadecimal form *)
  toHexString : ObjectId -> string;
  (** [new Date(string)] *)
  new_Date : string -> JS.Date;
  (** [Date.prototype.toDateString] at a valid time value, in the local
      time zone of the server *)
  dateString : Z -> string;
  (** ToString on a number *)
  Number_toString : JS.number -> string;
  (** the empty string is not a date *)
  new_Date_empty : new_Date "" = JS.InvalidDate
}.

(** What one request reads from its surroundings: the clock, read by
    [new Date()], and the identifier that [new User] generates. *)
Record env : Type := {
  now : Z;
  fresh : ObjectId
}.

(** [req.params._id], [req.body] and [req.query]. *)
Record request : Type := {
  params__id : string;
  body : gmap string string;
  query : gmap string string
}.

(** The value handed to [res.json]. *)
#[local] Unset Elimination Schemes.
Inductive JSON : Type :=
  | JString (s : string)
  | JNumber (n : JS.number)
  | JArray (items : list JSON)
  | JObject (fields : list (string * JSON)).
#[local] Set Elimination Schemes.

Record response : Type := {
  status : Z;
  json : JSON
}.

Definition error_json (message : string) : JSON :=
  JObject [("error", JString message)].

(** ** The schema and the collection *)

Module Mongoose.

(** An element of [log] as stored: the schema types are String, Number
    and Date. *)
Record exercise : Type := {
  description : string;
  duration : JS.number;
  date : Z
}.

(** A document of the collection, stored under its [_id]. *)
Record user : Type := {
  username : string;
  log : list exercise
}.

(** The object literal that a handler pushes onto [user.log]. *)
Record exerciseObj : Type := {
  o_description : string;
  o_duration : JS.number;
  o_date : JS.Date
}.

(** A document in memory: a new one, or one loaded from the collection,
    with the elements pushed onto its log since. *)
Record document : Type := {
  isNew : bool;
  d_id : ObjectId;
  d_username : string;
  d_log : list exercise;
  d_pushed : list exerciseObj
}.

(** The calls made to the store. *)
Inductive call : Type :=
  | FindById (id : ObjectId)
  | InsertOne (id : ObjectId) (doc : user)
  | UpdateOne (id : ObjectId) (pushed : list exercise).

Definition mutating (c : call) : bool :=
  match c with
  | FindById _ => false
  | InsertOne _ _ | UpdateOne _ _ => true
  end.

Inductive outcome (A : Type) : Type :=
  | Ok (a : A)
  | Throw (message : string).
Arguments Ok {A} a.
Arguments Throw {A} message.

(** A computation over the collection: its outcome, the collection after
    it, and the calls it made, in order. *)
Definition IO (A : Type) : Type :=
  gmap ObjectId user -> outcome A * gmap ObjectId user * list call.

Definition ret {A : Type} (a : A) : IO A := fun db => (Ok a, db, []).

Definition throw {A : Type} (message : string) : IO A :=
  fun db => (Throw message, db, []).

Definition bind {A B : Type} (m : IO A) (k : A -> IO B) : IO B :=
  fun db =>
    match m db with
    | (Ok a, db1, t1) =>
        let '(r, db2, t2) := k a db1 in (r, db2, (t1 ++ t2)%list)
    | (Throw message, db1, t1) => (Throw message, db1, t1)
    end.

#[global] Instance IO_ret : MRet IO := @ret.
#[global] Instance IO_bind : MBind IO := fun A B k m => bind m k.

(** [try { ... } catch (err) { res.status(500).json({ error: err.message }) }] *)
Definition try_catch (m : IO response)
    (db : gmap ObjectId user) : response * gmap ObjectId user * list call :=
  match m db with
  | (Ok r, db1, t) => (r, db1, t)
  | (Throw message, db1, t) =>
      ({| status := 500; json := error_json message |}, db1, t)
  end.

(** What running a handler leaves behind. *)
Definition response_of (r : response * gmap ObjectId user * list call) : response :=
  r.1.1.
Definition store_after (r : response * gmap ObjectId user * list call)
    : gmap ObjectId user :=
  r.1.2.
Definition calls_of (r : response * gmap ObjectId user * list call) : list call :=
  r.2.

(** Casting and validating a pushed element against the schema of the
    source, [{ description: String, duration: Number, date: Date }] with
    every path required: Mongoose rejects an empty description (required),
    a NaN duration (cast to Number) and an invalid date (cast to Date). *)
Definition cast_exercise (o : exerciseObj) : option exercise :=
  if String.eqb (o_description o) "" then None
  else
    match o_duration o, o_date o with
    | JS.NaN, _ => None
    | _, JS.InvalidDate => None
    | n, JS.DateOf tv =>
        Some {| description := o_description o; duration := n; date := tv |}
    end.

(** [new User({ username })] *)
Definition new_User (id : ObjectId) (username : string) : document :=
  {| isNew := true; d_id := id; d_username := username;
     d_log := []; d_pushed := [] |}.

Definition hydrate (id : ObjectId) (u : user) : document :=
  {| isNew := false; d_id := id; d_username := username u;
     d_log := log u; d_pushed := [] |}.

(** [user.log.push(exercise)] *)
Definition push (d : document) (o : exerciseObj) : document :=
  {| isNew := isNew d; d_id := d_id d; d_username := d_username d;
     d_log := d_log d; d_pushed := (d_pushed d ++ [o])%list |}.

(** [User.findById(id)] *)
Definition findById `{Runtime} (id : string) : IO (option document) :=
  match castObjectId id with
  | None => throw "Cast to ObjectId failed"
  | Some oid => fun db => (Ok (hydrate oid <$> db !! oid), db, [FindById oid])
  end.

(** [doc.save()]: validation first (the username is required, the pushed
    elements are cast), then one insert for a new document or one update
    pushing the new elements; the promise resolves to the document. A
    failure rejects the promise; the messages are shortened here. *)
Definition save (d : document) : IO document :=
  if String.eqb (d_username d) "" then throw "User validation failed"
  else
    match mapM cast_exercise (d_pushed d) with
    | None => throw "User validation failed"
    | Some es =>
        fun db =>
          if isNew d then
            let u := {| username := d_username d; log := es |} in
            match db !! d_id d with
            | Some _ =>
                (Throw "E11000 duplicate key error", db, [InsertOne (d_id d) u])
            | None => (Ok d, <[d_id d := u]> db, [InsertOne (d_id d) u])
            end
          else
            match db !! d_id d with
            | Some stored =>
                let u := {| username := username stored;
                            log := (log stored ++ es)%list |} in
                (Ok d, <[d_id d := u]> db, [UpdateOne (d_id d) es])
            | None =>
                (Throw "No document found for query", db, [UpdateOne (d_id d) es])
            end
    end.

End Mongoose.

Import Mongoose.

(** A request from its path parameter and its body and query fields. *)
Definition mk_request (id : string) (b q : list (string * string)) : request :=
  {| params__id := id; body := list_to_map b; query := list_to_map q |}.

Section Helpers.
Context `{Runtime}.

(** [mongoose.Types.ObjectId.isValid] *)
Definition isValid (id : string) : bool :=
  match castObjectId id with
  | Some _ => true
  | None => false
  end.

(** [Date.prototype.toDateString] *)
Definition toDateString (d : JS.Date) : string :=
  match d with
  | JS.InvalidDate => "Invalid Date"
  | JS.DateOf tv => dateString tv
  end.

(** The string in a field that a truthiness test has found present. *)
Definition str (v : option string) : string := default "" v.

Definition send (code : Z) (j : JSON) : IO response :=
  mret {| status := code; json := j |}.

End Helpers.

(** ** The first copy of the server *)

Module V1.
Section Handlers.
Context `{Runtime}.

(** [app.post('/api/users', ...)] *)
Definition post_users (e : env) (req : request) : IO response :=
  let username := body req !! "username" in
  if negb (JS.truthy username) || String.eqb (JS.trim (str username)) ""
  then send 400 (error_json "Username is required")
  else
    let user := new_User (fresh e) (JS.trim (str username)) in
    savedUser ← save user;
    send 200 (JObject [("username", JString (d_username savedUser));
                       ("_id", JString (toHexString (d_id savedUser)))]).

(** [date && date.trim() !== '' ? new Date(date) : new Date()] *)
Definition exercise_date (e : env) (date : option string) : JS.Date :=
  if JS.truthy date && negb (String.eqb (JS.trim (str date)) "")
  then new_Date (str date)
  else JS.DateOf (now e).

(** [app.post('/api/users/:_id/exercises', ...)] *)
Definition post_exercises (e : env) (req : request) : IO response :=
  let description := body req !! "description" in
  let duration := body req !! "duration" in
  let date := body req !! "date" in
  let userId := params__id req in
  if negb (JS.truthy description) || negb (JS.truthy duration)
  then send 400 (error_json "Description and duration are required")
  else if negb (isValid userId)
  then send 400 (error_json "Invalid user ID format")
  else
    user ← findById userId;
    match user with
    | None => send 404 (error_json "User not found")
    | Some user =>
        let exerciseDate := exercise_date e date in
        if JS.isNaN (JS.getTime exerciseDate)
        then send 400 (error_json "Invalid date format")
        else
          let exercise :=
            {| o_description := str description;
               o_duration := JS.parseInt (str duration);
               o_date := exerciseDate |} in
          let user := push user exercise in
          _ ← save user;
          send 200 (JObject [("_id", JString (toHexString (d_id user)));
                             ("username", JString (d_username user));
                             ("description", JString (o_description exercise));
                             ("duration", JNumber (o_duration exercise));
                             ("date", JString (toDateString exerciseDate))])
    end.

(** The two date filters of the logs handler, each applied only when its
    query value is present and parses to a valid date. *)
Definition filter_from (from : option string) (logs : list exercise) : list exercise :=
  if JS.truthy from then
    let fromDate := new_Date (str from) in
    if negb (JS.isNaN (JS.getTime fromDate))
    then List.filter (fun exercise => JS.ge (JS.DateOf (date exercise)) fromDate) logs
    else logs
  else logs.

Definition filter_to (to : option string) (logs : list exercise) : list exercise :=
  if JS.truthy to then
    let toDate := new_Date (str to) in
    if negb (JS.isNaN (JS.getTime toDate))
    then List.filter (fun exercise => JS.le (JS.DateOf (date exercise)) toDate) logs
    else logs
  else logs.

Definition apply_limit (limit : option string) (logs : list exercise) : list exercise :=
  if JS.truthy limit && negb (JS.isNaN (JS.parseInt (str limit)))
  then JS.slice0 logs (JS.parseInt (str limit))
  else logs.

Definition format (exercise : Mongoose.exercise) : JSON :=
  JObject [("description", JString (description exercise));
           ("duration", JNumber (JS.parseInt (Number_toString (duration exercise))));
           ("date", JString (toDateString (JS.DateOf (date exercise))))].

(** [app.get('/api/users/:_id/logs', ...)] *)
Definition get_logs (req : request) : IO response :=
  let from := query req !! "from" in
  let to := query req !! "to" in
  let limit := query req !! "limit" in
  let userId := params__id req in
  if negb (isValid userId)
  then send 400 (error_json "Invalid user ID format")
  else
    user ← findById userId;
    match user with
    | None => send 404 (error_json "User not found")
    | Some user =>
        let logs := d_log user in
        let logs := filter_from from logs in
        let logs := filter_to to logs in
        let logs := apply_limit limit logs in
        let formattedLogs := map format logs in
        send 200 (JObject [("_id", JString (toHexString (d_id user)));
                           ("username", JString (d_username user));
                           ("count", JNumber (JS.of_Z (Z.of_nat (length formattedLogs))));
                           ("log", JArray formattedLogs)])
    end.

End Handlers.
End V1.

(** ** The second copy of the server *)

Module V2.
Section Handlers.
Context `{Runtime}.

(** [app.post('/api/users', ...)] *)
Definition post_users (e : env) (req : request) : IO response :=
  let username := body req !! "username" in
  if negb (JS.truthy username)
  then send 400 (error_json "Username is required")
  else
    let user := new_User (fresh e) (str username) in
    _ ← save user;
    send 201 (JObject [("username", JString (d_username user));
                       ("_id", JString (toHexString (d_id user)))]).

(** [date ? new Date(date) : new Date()] *)
Definition exercise_date (e : env) (date : option string) : JS.Date :=
  if JS.truthy date then new_Date (str date) else JS.DateOf (now e).

(** [app.post('/api/users/:_id/exercises', ...)] *)
Definition post_exercises (e : env) (req : request) : IO response :=
  let description := body req !! "description" in
  let duration := body req !! "duration" in
  let date := body req !! "date" in
  let userId := params__id req in
  if negb (JS.truthy description) || negb (JS.truthy duration)
  then send 400 (error_json "Description and duration are required")
  else if negb (isValid userId)
  then send 400 (error_json "Invalid user ID format")
  else
    user ← findById userId;
    match user with
    | None => send 404 (error_json "User not found")
    | Some user =>
        let exerciseDate := exercise_date e date in
        let exercise :=
          {| o_description := str description;
             o_duration := JS.Number (str duration);
             o_date := exerciseDate |} in
        let user := push user exercise in
        _ ← save user;
        send 201 (JObject [("_id", JString (toHexString (d_id user)));
                           ("username", JString (d_username user));
                           ("description", JString (str description));
                           ("duration", JNumber (JS.Number (str duration)));
                           ("date", JString (toDateString exerciseDate))])
    end.

Definition filter_from (from : option string) (logs : list exercise) : list exercise :=
  if JS.truthy from then
    let fromDate := new_Date (str from) in
    List.filter (fun exercise => JS.ge (JS.DateOf (date exercise)) fromDate) logs
  else logs.

Definition filter_to (to : option string) (logs : list exercise) : list exercise :=
  if JS.truthy to then
    let toDate := new_Date (str to) in
    List.filter (fun exercise => JS.le (JS.DateOf (date exercise)) toDate) logs
  else logs.

Definition apply_limit (limit : option string) (logs : list exercise) : list exercise :=
  if JS.truthy limit then JS.slice0 logs (JS.Number (str limit)) else logs.

Definition format (exercise : Mongoose.exercise) : JSON :=
  JObject [("description", JString (description exercise));
           ("duration", JNumber (duration exercise));
           ("date", JString (toDateString (JS.DateOf (date exercise))))].

(** [app.get('/api/users/:_id/logs', ...)] *)
Definition get_logs (req : request) : IO response :=
  let from := query req !! "from" in
  let to := query req !! "to" in
  let limit := query req !! "limit" in
  let userId := params__id req in
  if negb (isValid userId)
  then send 400 (error_json "Invalid user ID format")
  else
    user ← findById userId;
    match user with
    | None => send 404 (error_json "User not found")
    | Some user =>
        let logs := d_log user in
        let logs := filter_from from logs in
        let logs := filter_to to logs in
        let logs := apply_limit limit logs in
        let formattedLogs := map format logs in
        send 200 (JObject [("_id", JString (toHexString (d_id user)));
                           ("username", JString (d_username user));
                           ("count", JNumber (JS.of_Z (Z.of_nat (length formattedLogs))));
                           ("log", JArray formattedLogs)])
    end.

End Handlers.
End V2.

(** ** A concrete runtime

    An instance of [Runtime] on which requests can be evaluated: ObjectIds
    written as 24 hexadecimal digits; dates in the forms of the ECMAScript
    date-time string format that start with a full date ([YYYY-MM-DD],
    optionally followed by [THH:mm], seconds, milliseconds and an offset),
    every other string being an invalid date; and a server whose local
    time is a fixed offset [tza] (in milliseconds) from UTC. *)

Module Node.

Definition digit_char (v : Z) : ascii :=
  ascii_of_N (Z.to_N (if v <? 10 then 48 + v else 87 + v)).

(** The [width] low digits of [n] in the radix, most significant first. *)
Fixpoint digits (radix : Z) (width : nat) (n : Z) : list ascii :=
  match width with
  | O => []
  | S w => (digits radix w (n / radix) ++ [digit_char (n mod radix)])%list
  end.

Definition castObjectId (s : string) : option ObjectId :=
  let l := list_ascii_of_string s in
  if Nat.eqb (length l) 24 then Z.to_N <$> JS.all_digits 16 l else None.

Definition toHexString (id : ObjectId) : string :=
  string_of_list_ascii (digits 16 24 (Z.of_N id)).

(** The calendar is computed over eras of 400 years that start on
    1 March, with months counted from March (0) to February (11). *)

(** The day of the era, from the year of the era, the month and the day. *)
Definition day_of_era (yoe mp d : Z) : Z :=
  yoe * 365 + yoe / 4 - yoe / 100 + ((153 * mp + 2) / 5 + d - 1).

(** The year of the era, the month and the day, from the day of the era. *)
Definition civil_of_era (doe : Z) : Z * Z * Z :=
  let yoe := (doe - doe / 1460 + doe / 36524 - doe / 146096) / 365 in
  let doy := doe - (365 * yoe + yoe / 4 - yoe / 100) in
  let mp := (5 * doy + 2) / 153 in
  (yoe, mp, doy - (153 * mp + 2) / 5 + 1).

(** Days since the epoch of a civil date of the proleptic Gregorian
    calendar. [m] is from 1 to 12; a day past the end of the month runs
    into the next one. *)
Definition days_from_civil (y m d : Z) : Z :=
  let y' := if m <=? 2 then y - 1 else y in
  let era := y' / 400 in
  let mp := if 2 <? m then m - 3 else m + 9 in
  era * 146097 + day_of_era (y' - era * 400) mp d - 719468.

(** The civil date of a day number: year, month (1 to 12), day. *)
Definition civil_from_days (z : Z) : Z * Z * Z :=
  let z := z + 719468 in
  let era := z / 146097 in
  let '(yoe, mp, d) := civil_of_era (z - era * 146097) in
  let m := if mp <? 10 then mp + 3 else mp - 9 in
  let y := yoe + era * 400 in
  (if m <=? 2 then y + 1 else y, m, d).

Definition leap (y : Z) : bool :=
  ((y mod 4 =? 0) && negb (y mod 100 =? 0)) || (y mod 400 =? 0).

Definition days_in_month (y m : Z) : Z :=
  if m =? 2 then (if leap y then 29 else 28)
  else if (m =? 4) || (m =? 6) || (m =? 9) || (m =? 11) then 30
  else 31.

(** The day of the week of a day number, 0 for Sunday. *)
Definition weekDay (day : Z) : Z := (day + 4) mod 7.

(** The date-only form [YYYY-MM-DD]. *)
Definition iso_date (y m d : Z) : string :=
  string_of_list_ascii
    (digits 10 4 y ++ "-"%char :: digits 10 2 m ++ "-"%char :: digits 10 2 d).

(** [p] holds of every integer from 0 up to [n], excluded. *)
Fixpoint forall_below (n : nat) (p : Z -> bool) : bool :=
  match n with
  | O => true
  | S k => p (Z.of_nat k) && forall_below k p
  end.

(** The length of a month of the era: February belongs to the civil year
    that follows the year of the era. *)
Definition era_month_length (yoe mp : Z) : Z :=
  days_in_month (if mp <? 10 then yoe else yoe + 1)
                (if mp <? 10 then mp + 3 else mp - 9).

(** Every day of the year [yoe] of the era falls inside the era and is
    mapped back to itself. *)
Definition era_ok (yoe : Z) : bool :=
  forall_below 12 (fun mp =>
    forall_below (Z.to_nat (era_month_length yoe mp)) (fun d0 =>
      let doe := day_of_era yoe mp (d0 + 1) in
      (0 <=? doe) && (doe <? 146097) &&
      let '(a, b, c) := civil_of_era doe in
      (a =? yoe) && (b =? mp) && (c =? d0 + 1))).

Definition msPerDay : Z := 86400000.

(** TimeClip *)
Definition timeClip (tv : Z) : JS.Date :=
  if Z.abs tv <=? 8640000000000000 then JS.DateOf tv else JS.InvalidDate.

(** A field of exactly [n] decimal digits at the head of the input. *)
Definition field (n : nat) (l : list ascii) : option (Z * list ascii) :=
  let '(ds, _) := JS.span_digits 10 (firstn n l) in
  if Nat.eqb (length ds) n then Some (JS.digits_value 10 ds, skipn n l) else None.

(** The time of day [HH:mm], [HH:mm:ss] or [HH:mm:ss.sss], in
    milliseconds, and what follows it. *)
Definition time_of_day (l : list ascii) : option (Z * list ascii) :=
  '(hh, l) ← field 2 l;
  match l with
  | ":"%char :: l =>
      '(mm, l) ← field 2 l;
      '(ss, ms, l) ←
        match l with
        | ":"%char :: l =>
            '(ss, l) ← field 2 l;
            match l with
            | "."%char :: l => '(ms, l) ← field 3 l; Some (ss, ms, l)
            | _ => Some (ss, 0, l)
            end
        | _ => Some (0, 0, l)
        end;
      if (hh <=? 23) && (mm <=? 59) && (ss <=? 59)
         || (hh =? 24) && (mm =? 0) && (ss =? 0) && (ms =? 0)
      then Some (((hh * 60 + mm) * 60 + ss) * 1000 + ms, l)
      else None
  | _ => None
  end.

(** The offset from UTC that ends a date-time: [Z], [+HH:mm], [-HH:mm],
    or none, which means local time. *)
Definition utc_offset (tza : Z) (l : list ascii) : option Z :=
  let hhmm sign l :=
    '(hh, l) ← field 2 l;
    match l with
    | ":"%char :: l =>
        '(mm, l) ← field 2 l;
        match l with
        | [] => if (hh <=? 23) && (mm <=? 59)
                then Some (sign * (hh * 60 + mm) * 60000) else None
        | _ => None
        end
    | _ => None
    end in
  match l with
  | [] => Some tza
  | ["Z"%char] => Some 0
  | "+"%char :: l => hhmm 1 l
  | "-"%char :: l => hhmm (-1) l
  | _ => None
  end.

(** [new Date(string)] on the date-time string format. A date alone is
    UTC; a date with a time and no offset is local time. *)
Definition new_Date (tza : Z) (s : string) : JS.Date :=
  let parsed :=
    '(y, l) ← field 4 (list_ascii_of_string s);
    match l with
    | "-"%char :: l =>
        '(m, l) ← field 2 l;
        match l with
        | "-"%char :: l =>
            '(d, l) ← field 2 l;
            if (1 <=? m) && (m <=? 12) && (1 <=? d) && (d <=? 31) then
              let day := days_from_civil y m d in
              match l with
              | [] => Some (day * msPerDay)
              | "T"%char :: l =>
                  '(t, l) ← time_of_day l;
                  offset ← utc_offset tza l;
                  Some (day * msPerDay + t - offset)
              | _ => None
              end
            else None
        | _ => None
        end
    | _ => None
    end in
  match parsed with
  | Some tv => timeClip tv
  | None => JS.InvalidDate
  end.

Definition weekdayName (w : Z) : string :=
  nth (Z.to_nat w) ["Sun"; "Mon"; "Tue"; "Wed"; "Thu"; "Fri"; "Sat"] "".

Definition monthName (m : Z) : string :=
  nth (Z.to_nat (m - 1))
      ["Jan"; "Feb"; "Mar"; "Apr"; "May"; "Jun";
       "Jul"; "Aug"; "Sep"; "Oct"; "Nov"; "Dec"] "".

(** The decimal digits of a natural number, without leading zeros. *)
Fixpoint strip_zeros (l : list ascii) : list ascii :=
  match l with
  | "0"%char :: (_ :: _) as r => strip_zeros r
  | _ => l
  end.

Definition decimal (n : Z) : list ascii :=
  strip_zeros (digits 10 (S (Z.to_nat (Z.log2 n))) n).

Definition zeros (n : Z) : list ascii := repeat "0"%char (Z.to_nat n).

(** The date of a civil day as [toDateString] prints it: the name of the
    day of the week, the name of the month, the day on two digits and the
    year on at least four. *)
Definition civilString (w y m d : Z) : string :=
  let yv := decimal (Z.abs y) in
  weekdayName w ++ " " ++ monthName m ++ " "
  ++ string_of_list_ascii (digits 10 2 d) ++ " "
  ++ (if y <? 0 then "-" else "")
  ++ string_of_list_ascii (zeros (4 - Z.of_nat (length yv)) ++ yv).

(** [toDateString] at a valid time value: the calendar day of the local
    time [tv + tza]. *)
Definition dateString (tza : Z) (tv : Z) : string :=
  let day := (tv + tza) / msPerDay in
  let '(y, m, d) := civil_from_days day in
  civilString (weekDay day) y m d.

(** The least [m] up to the fuel with [den] dividing [10 ^ m]. *)
Fixpoint decimal_places (fuel : nat) (m : Z) (den : Z) : option Z :=
  if (10 ^ m) mod den =? 0 then Some m
  else match fuel with
       | O => None
       | S f => decimal_places f (m + 1) den
       end.

(** Number::toString in radix 10, on NaN, the infinities and the numbers
    with a finite decimal expansion (every double has one): with [s] the
    [k] significant digits and [n] the position of the decimal point, the
    result is plain notation for [-6 < n <= 21] and exponent notation
    otherwise. A rational with no finite expansion prints as NaN. *)
Definition Number_toString (x : JS.number) : string :=
  match x with
  | JS.NaN => "NaN"
  | JS.Infinity false => "Infinity"
  | JS.Infinity true => "-Infinity"
  | JS.Fin q =>
      let q := Qred q in
      let den := Z.pos (Qden q) in
      match decimal_places (S (Z.to_nat (Z.log2 den))) 0 den with
      | None => "NaN"
      | Some m =>
          if Qnum q =? 0 then "0"
          else
            let all := decimal (Z.abs (Qnum q) * 10 ^ m / den) in
            let n := Z.of_nat (length all) - m in
            let s := rev (strip_zeros (rev all)) in
            let k := Z.of_nat (length s) in
            let body :=
              if (k <=? n) && (n <=? 21) then (s ++ zeros (n - k))%list
              else if (0 <? n) && (n <=? 21)
              then (firstn (Z.to_nat n) s ++ "."%char :: skipn (Z.to_nat n) s)%list
              else if (-6 <? n) && (n <=? 0)
              then ("0"%char :: "."%char :: zeros (- n) ++ s)%list
              else
                let e := n - 1 in
                let mantissa :=
                  match s with
                  | [d] => [d]
                  | d :: r => d :: "."%char :: r
                  | [] => []
                  end in
                (mantissa ++ "e"%char :: (if e <? 0 then "-"%char else "+"%char)
                          :: decimal (Z.abs e))%list in
            string_of_list_ascii (if Qnum q <? 0 then "-"%char :: body else body)
      end
  end.

(** The runtime of a server at the fixed offset [tza] from UTC. *)
Definition runtime (tza : Z) : Runtime :=
  Build_Runtime castObjectId toHexString (new_Date tza) (dateString tza)
                Number_toString eq_refl.

End Node.

(** ** Predicates of the contract, and a store to evaluate on *)

(** A string with no whitespace at either end. *)
Definition trimmed (s : string) : Prop :=
  forall c r,
    list_ascii_of_string s = c :: r \/ list_ascii_of_string s = (r ++ [c])%list ->
    JS.is_ws c = false.

(** A trace in which no call writes to the store. *)
Definition read_only (t : list call) : bool :=
  forallb (fun c => negb (mutating c)) t.

(** The property [k] of the object handed to [res.json]. *)
Definition property (k : string) (j : JSON) : option JSON :=
  match j with
  | JObject fields => snd <$> List.find (fun kv => String.eqb (fst kv) k) fields
  | _ => None
  end.

(** The object the first copy answers with. *)
Definition V1_logs_json `{Runtime} (oid : ObjectId) (u : user) (logs : list exercise) : JSON :=
  JObject [("_id", JString (toHexString oid));
           ("username", JString (username u));
           ("count", JNumber (JS.of_Z (Z.of_nat (length (map V1.format logs)))));
           ("log", JArray (map V1.format logs))].

(** The object the first copy answers an added exercise with. *)
Definition V1_exercise_json `{Runtime} (oid : ObjectId) (u : user) (o : exerciseObj)
    : JSON :=
  JObject [("_id", JString (toHexString oid));
           ("username", JString (username u));
           ("description", JString (o_description o));
           ("duration", JNumber (o_duration o));
           ("date", JString (toDateString (o_date o)))].

(** In a response that carries a log, [count] is the length of the log. *)
Definition count_matches (res : response) : Prop :=
  forall l, property "log" (json res) = Some (JArray l) ->
            property "count" (json res)
            = Some (JNumber (JS.of_Z (Z.of_nat (length l)))).

(** The query of a request with one value set, and with one value absent. *)
Definition set_query (k v : string) (req : request) : request :=
  {| params__id := params__id req; body := body req;
     query := <[k := v]> (query req) |}.

Definition unset_query (k : string) (req : request) : request :=
  {| params__id := params__id req; body := body req;
     query := delete k (query req) |}.

Module Fixture.

(** A server on UTC, and one five hours west of it. *)
Definition utc : Runtime := Node.runtime 0.
Definition west : Runtime := Node.runtime (-18000000).

(** 2023-11-14T22:13:20Z on the clock. *)
Definition e0 : env := {| now := 1700000000000; fresh := 5%N |}.

Definition alice_id : string := "64b7f0c2a1d3e4f5a6b7c8d9".
Definition alice : ObjectId :=
  Eval vm_compute in default 0%N (Node.castObjectId alice_id).

(** Three entries, of 10, 15 and 20 January 2023 (UTC midnight). *)
Definition run : exercise :=
  {| description := "run"; duration := JS.of_Z 30; date := 1673308800000 |}.
Definition swim : exercise :=
  {| description := "swim"; duration := JS.of_Z 45; date := 1673740800000 |}.
Definition row : exercise :=
  {| description := "row"; duration := JS.of_Z 20; date := 1674172800000 |}.

Definition db1 : gmap ObjectId user :=
  {[ alice := {| username := "alice"; log := [run; swim; row] |} ]}.

Definition db0 : gmap ObjectId user :=
  {[ alice := {| username := "alice"; log := [] |} ]}.

End Fixture.

(** ** Listing the users

    [User.find({})] with the projection ['username _id'] reads every
    document of the collection and keeps its identifier and its username.
    The order of the result is the order of the store; nothing below
    depends on it. *)

Module Listing.

(** The call made to the store. *)
Inductive query : Type :=
  | Find (projection : list string).

(** A document as the projection returns it. *)
Record projected : Type := {
  p_id : ObjectId;
  p_username : string
}.

(** [User.find({}).select('username _id')], [User.find({}, 'username _id')] *)
Definition find (db : gmap ObjectId user)
    : outcome (list projected) * gmap ObjectId user * list query :=
  (Ok (map (fun kv => {| p_id := kv.1; p_username := username kv.2 |})
           (map_to_list db)),
   db, [Find ["username"; "_id"]]).

Section Handlers.
Context `{Runtime}.

(** [app.get('/api/users', ...)] of the first copy *)
Definition V1_get_users (db : gmap ObjectId user)
    : response * gmap ObjectId user * list query :=
  match find db with
  | (Ok users, db1, t) =>
      let userArray :=
        map (fun user => JObject [("username", JString (p_username user));
                                  ("_id", JString (toHexString (p_id user)))])
            users in
      ({| status := 200; json := JArray userArray |}, db1, t)
  | (Throw message, db1, t) =>
      ({| status := 500; json := error_json message |}, db1, t)
  end.

(** [app.get('/api/users', ...)] of the second copy: the documents
    themselves are serialized, identifier first. *)
Definition V2_get_users (db : gmap ObjectId user)
    : response * gmap ObjectId user * list query :=
  match find db with
  | (Ok users, db1, t) =>
      ({| status := 200;
          json := JArray (map (fun user =>
                                 JObject [("_id", JString (toHexString (p_id user)));
                                          ("username", JString (p_username user))])
                              users) |},
       db1, t)
  | (Throw message, db1, t) =>
      ({| status := 500; json := error_json message |}, db1, t)
  end.

End Handlers.
End Listing.

(** ** Requests one after the other *)

(** The responses of a sequence of requests to one handler, each run on
    the collection the one before it left, and the collection at the end. *)
Fixpoint run_all (handler : env -> request -> IO response)
    (reqs : list (env * request)) (db : gmap ObjectId user)
    : list response * gmap ObjectId user :=
  match reqs with
  | [] => ([], db)
  | (e, req) :: rest =>
      let r := try_catch (handler e req) db in
      let '(rs, db') := run_all handler rest (store_after r) in
      (response_of r :: rs, db')
  end.

(** The object literal that the add-exercise handler of the first copy
    builds from a request. *)
Definition V1_exercise_obj `{Runtime} (e : env) (req : request) : exerciseObj :=
  {| o_description := str (body req !! "description");
     o_duration := JS.parseInt (str (body req !! "duration"));
     o_date := V1.exercise_date e (body req !! "date") |}.

(** The same, of the second copy. *)
Definition V2_exercise_obj `{Runtime} (e : env) (req : request) : exerciseObj :=
  {| o_description := str (body req !! "description");
     o_duration := JS.Number (str (body req !! "duration"));
     o_date := V2.exercise_date e (body req !! "date") |}.

(** The entries that the date filters and the limit of a logs request
    select, in each copy. *)
Definition V1_selected `{Runtime} (req : request) (logs : list exercise)
    : list exercise :=
  V1.apply_limit (query req !! "limit")
    (V1.filter_to (query req !! "to") (V1.filter_from (query req !! "from") logs)).

Definition V2_selected `{Runtime} (req : request) (logs : list exercise)
    : list exercise :=
  V2.apply_limit (query req !! "limit")
    (V2.filter_to (query req !! "to") (V2.filter_from (query req !! "from") logs)).

(** A string of decimal digits, and nothing else. *)
Definition decimal_digits (s : string) : bool :=
  match JS.all_digits 10 (list_ascii_of_string s) with
  | Some _ => true
  | None => false
  end.

Ltac io :=
  unfold mbind, IO_bind, bind, mret, IO_ret, ret, send, throw in *.

(** ** The built-ins on examples *)

Example date_only_utc :
  Node.new_Date 0 "2023-01-15" = JS.DateOf 1673740800000.
Proof. reflexivity. Qed.
Example date_time_offset :
  Node.new_Date 0 "2023-01-15T22:00:00-05:00" = JS.DateOf 1673838000000.
Proof. reflexivity. Qed.
Example date_garbage : Node.new_Date 0 "garbage" = JS.InvalidDate.
Proof. reflexivity. Qed.
Example date_blank : Node.new_Date 0 "  " = JS.InvalidDate.
Proof. reflexivity. Qed.
Example dateString_scenario : Node.dateString 0 1673740800000 = "Sun Jan 15 2023".
Proof. reflexivity. Qed.
Example dateString_epoch : Node.dateString 0 0 = "Thu Jan 01 1970".
Proof. reflexivity. Qed.
Example dateString_west : Node.dateString (-18000000) 1673740800000 = "Sat Jan 14 2023".
Proof. reflexivity. Qed.
Example toString_30 : Node.Number_toString (JS.of_Z 30) = "30".
Proof. reflexivity. Qed.
Example toString_1_5 : Node.Number_toString (JS.Number "-1.50") = "-1.5".
Proof. reflexivity. Qed.
Example toString_1e21 : Node.Number_toString (JS.Number "1e21") = "1e+21".
Proof. reflexivity. Qed.
Example toString_1200 : Node.Number_toString (JS.Number "12e2") = "1200".
Proof. reflexivity. Qed.
Example toString_small : Node.Number_toString (JS.Number "0.0000005") = "5e-7".
Proof. reflexivity. Qed.
Example toString_small2 : Node.Number_toString (JS.Number "0.00000123") = "0.00000123".
Proof. reflexivity. Qed.
Example toString_exp : Node.Number_toString (JS.Number "123456e20") = "1.23456e+25".
Proof. reflexivity. Qed.
Example dateString_y10k : Node.dateString 0 253402300800000 = "Sat Jan 01 10000".
Proof. reflexivity. Qed.
Example dateString_y0 : Node.dateString 0 (-62167219200000) = "Sat Jan 01 0000".
Proof. reflexivity. Qed.
Example hex_roundtrip :
  Node.toHexString <$> Node.castObjectId "64B7f0c2a1d3e4f5a6b7c8d9"
  = Some "64b7f0c2a1d3e4f5a6b7c8d9".
Proof. reflexivity. Qed.

Example parseInt_30 : JS.parseInt "30" = JS.of_Z 30.
Proof. reflexivity. Qed.
Example parseInt_abc : JS.parseInt "abc" = JS.NaN.
Proof. reflexivity. Qed.
Example parseInt_pref : JS.parseInt "  -12.7px" = JS.of_Z (-12).
Proof. reflexivity. Qed.
Example parseInt_hex : JS.parseInt "0x1F" = JS.of_Z 31.
Proof. reflexivity. Qed.
Example trim_ex : JS.trim "  bob  " = "bob".
Proof. reflexivity. Qed.
Example Number_1_5 : JS.Number "1.5" = JS.Fin (Qmake 3 2).
Proof. reflexivity. Qed.
Example Number_exp : JS.Number " 12e-1 " = JS.Fin (Qmake 6 5).
Proof. reflexivity. Qed.
Example Number_abc : JS.Number "abc" = JS.NaN.
Proof. reflexivity. Qed.
Example Number_12abc : JS.Number "12abc" = JS.NaN.
Proof. reflexivity. Qed.
Example Number_blank : JS.Number "  " = JS.of_Z 0.
Proof. reflexivity. Qed.
Example Number_neg_inf : JS.Number "-Infinity" = JS.Infinity true.
Proof. reflexivity. Qed.
Example Number_dot : JS.Number "." = JS.NaN.
Proof. reflexivity. Qed.
Example Number_5e3 : JS.Number "5.e3" = JS.of_Z 5000.
Proof. reflexivity. Qed.
Example slice_neg : JS.slice0 [1;2;3] (JS.of_Z (-1)) = [1;2].
Proof. reflexivity. Qed.
Example slice_nan : JS.slice0 [1;2;3] JS.NaN = [].
Proof. reflexivity. Qed.

(** ** Facts about the built-ins *)

Section TrimFacts.

Lemma trimStart_l_head (l : list ascii) c r :
  JS.trimStart_l l = c :: r -> JS.is_ws c = false.
Proof.
  induction l as [|a l IH]; simpl; [discriminate|].
  destruct (JS.is_ws a) eqn:Ea; [exact IH|].
  intros [= <- _]. exact Ea.
Qed.

Lemma trimStart_l_snoc (l : list ascii) c :
  JS.is_ws c = false -> JS.trimStart_l (l ++ [c]) = (JS.trimStart_l l ++ [c])%list.
Proof.
  intros Hc. induction l as [|a l IH]; simpl.
  - now rewrite Hc.
  - destruct (JS.is_ws a); [exact IH | reflexivity].
Qed.

Lemma trimEnd_l_last (l : list ascii) c r :
  JS.trimEnd_l l = (r ++ [c])%list -> JS.is_ws c = false.
Proof.
  unfold JS.trimEnd_l. intros E.
  apply (f_equal (@rev ascii)) in E.
  rewrite rev_involutive, rev_app_distr in E. simpl in E.
  exact (trimStart_l_head _ _ _ E).
Qed.

Lemma trimEnd_l_cons (l : list ascii) c :
  JS.is_ws c = false -> exists r, JS.trimEnd_l (c :: l) = c :: r.
Proof.
  intros Hc. unfold JS.trimEnd_l. simpl rev.
  rewrite (trimStart_l_snoc _ _ Hc), rev_app_distr. simpl. eauto.
Qed.

Lemma trimEnd_l_nil : JS.trimEnd_l [] = [].
Proof. reflexivity. Qed.

End TrimFacts.


Lemma trim_trimmed (s : string) : trimmed (JS.trim s).
Proof.
  unfold trimmed, JS.trim. intros c r.
  rewrite list_ascii_of_string_of_list_ascii.
  intros [E|E]; [|exact (trimEnd_l_last _ _ _ E)].
  destruct (JS.trimStart_l (list_ascii_of_string s)) as [|a l] eqn:El.
  - rewrite trimEnd_l_nil in E. discriminate.
  - pose proof (trimStart_l_head _ _ _ El) as Ha.
    destruct (trimEnd_l_cons l a Ha) as [r' Er'].
    rewrite Er' in E. now injection E as <- _.
Qed.

Lemma trim_empty : JS.trim "" = "".
Proof. reflexivity. Qed.

Lemma truthy_Some (s : string) : s <> "" -> JS.truthy (Some s) = true.
Proof.
  intros Hs. unfold JS.truthy.
  destruct (String.eqb_spec s ""); [contradiction | reflexivity].
Qed.

Lemma truthy_inv (v : option string) :
  JS.truthy v = true -> exists s, v = Some s /\ s <> "".
Proof.
  destruct v as [s|]; simpl; [|discriminate].
  destruct (String.eqb_spec s ""); [discriminate|]. eauto.
Qed.

Lemma not_blank_not_empty (s : string) : JS.trim s <> "" -> s <> "".
Proof. intros Ht ->. now apply Ht. Qed.

Lemma parseInt_empty : JS.parseInt "" = JS.NaN.
Proof. reflexivity. Qed.

Lemma parseInt_NaN_or_integer (s : string) :
  JS.parseInt s = JS.NaN \/ exists k, JS.parseInt s = JS.of_Z k.
Proof.
  unfold JS.parseInt.
  repeat match goal with
         | |- context [match ?x with _ => _ end] => destruct x
         end; eauto.
Qed.


(** ** Facts about the store *)



Section StoreFacts.
Context `{Runtime}.

Lemma isValid_cast (id : string) :
  isValid id = true -> exists oid, castObjectId id = Some oid.
Proof. unfold isValid. destruct (castObjectId id); [eauto | discriminate]. Qed.

Lemma findById_cast (id : string) (oid : ObjectId) db :
  castObjectId id = Some oid ->
  findById id db = (Ok (hydrate oid <$> db !! oid), db, [FindById oid]).
Proof. intros E. unfold findById. now rewrite E. Qed.

(** A save that throws has left the collection as it was. *)
Lemma save_throw (d : document) db message db' t :
  save d db = (Throw message, db', t) -> db' = db.
Proof.
  unfold save. io.
  repeat match goal with
         | |- context [if ?b then _ else _] => destruct b
         | |- context [match ?x with _ => _ end] => destruct x
         end; intros [= <-]; congruence.
Qed.

(** Saving a loaded document onto which one element has been pushed. *)
Lemma save_push (id : ObjectId) (u : user) (o : exerciseObj) (x : exercise) db :
  db !! id = Some u ->
  username u <> "" ->
  cast_exercise o = Some x ->
  let u' := {| username := username u; log := (log u ++ [x])%list |} in
  save (push (hydrate id u) o) db
  = (Ok (push (hydrate id u) o), <[id := u']> db, [UpdateOne id [x]]).
Proof.
  intros Hu Hn Hx. unfold save, push, hydrate. simpl.
  destruct (String.eqb_spec (username u) ""); [contradiction|].
  rewrite Hx. simpl. now rewrite Hu.
Qed.

Lemma save_push_invalid (id : ObjectId) (u : user) (o : exerciseObj) db :
  cast_exercise o = None ->
  save (push (hydrate id u) o) db = (Throw "User validation failed", db, []).
Proof.
  intros Hx. unfold save, push, hydrate. simpl.
  destruct (String.eqb (username u) ""); [reflexivity|].
  now rewrite Hx.
Qed.

End StoreFacts.

(** ** Requests that are refused, and requests that only read *)

Section Frame.
Context `{Runtime}.

Lemma V1_post_users_frame e req db :
  let r := try_catch (V1.post_users e req) db in
  status (response_of r) = 400 \/ status (response_of r) = 404 ->
  store_after r = db /\ read_only (calls_of r) = true.
Proof.
  unfold V1.post_users, try_catch, response_of, store_after, calls_of. io.
  destruct (_ || _); simpl; [auto|].
  destruct (save _ db) as [[[d|m] db1] t1]; simpl; intros [?|?]; discriminate.
Qed.

Lemma V1_post_exercises_frame e req db :
  let r := try_catch (V1.post_exercises e req) db in
  status (response_of r) = 400 \/ status (response_of r) = 404 ->
  store_after r = db /\ read_only (calls_of r) = true.
Proof.
  unfold V1.post_exercises, try_catch, response_of, store_after, calls_of. io.
  destruct (_ || _); simpl; [auto|].
  destruct (isValid _) eqn:Ev; simpl; [|auto].
  destruct (isValid_cast _ Ev) as [oid Eo].
  rewrite (findById_cast _ _ _ Eo).
  destruct (db !! oid) as [u|]; simpl; [|auto].
  destruct (JS.isNaN _); simpl; [auto|].
  destruct (save _ db) as [[[d|m] db1] t1]; simpl; intros [?|?]; discriminate.
Qed.

Lemma V1_get_logs_frame req db :
  let r := try_catch (V1.get_logs req) db in
  store_after r = db /\ read_only (calls_of r) = true.
Proof.
  unfold V1.get_logs, try_catch, response_of, store_after, calls_of. io.
  destruct (isValid _) eqn:Ev; simpl; [|auto].
  destruct (isValid_cast _ Ev) as [oid Eo].
  rewrite (findById_cast _ _ _ Eo).
  destruct (db !! oid) as [u|]; simpl; auto.
Qed.

Lemma V2_get_logs_frame req db :
  let r := try_catch (V2.get_logs req) db in
  store_after r = db /\ read_only (calls_of r) = true.
Proof.
  unfold V2.get_logs, try_catch, response_of, store_after, calls_of. io.
  destruct (isValid _) eqn:Ev; simpl; [|auto].
  destruct (isValid_cast _ Ev) as [oid Eo].
  rewrite (findById_cast _ _ _ Eo).
  destruct (db !! oid) as [u|]; simpl; auto.
Qed.

End Frame.

(** C9. A create-user or add-exercise request of the first copy that is
    answered 400 or 404 has made no mutating call to the store, and the
    collection after it is the collection before it. *)
Theorem C9_refused_requests_write_nothing `{Runtime} (e : env) (req : request)
    (db : gmap ObjectId user) (r : response * gmap ObjectId user * list call) :
  r = try_catch (V1.post_users e req) db \/
  r = try_catch (V1.post_exercises e req) db ->
  status (response_of r) = 400 \/ status (response_of r) = 404 ->
  store_after r = db /\ read_only (calls_of r) = true.
Proof.
  intros [-> | ->] Hs.
  - now apply V1_post_users_frame.
  - now apply V1_post_exercises_frame.
Qed.

Lemma C9_refused_requests_write_nothing_witness :
  let r := try_catch (@V1.post_exercises Fixture.utc Fixture.e0
                        (mk_request Fixture.alice_id
                           [("description", "run"); ("duration", "30");
                            ("date", "garbage")] []))
                     Fixture.db1 in
  (status (response_of r) = 400 \/ status (response_of r) = 404) /\
  store_after r = Fixture.db1 /\ read_only (calls_of r) = true.
Proof.
  intros r.
  assert (Hs : status (response_of r) = 400 \/ status (response_of r) = 404)
    by (left; vm_compute; reflexivity).
  split; [exact Hs|].
  exact (@C9_refused_requests_write_nothing Fixture.utc Fixture.e0 _ Fixture.db1 r
           (or_intror eq_refl) Hs).
Defined.

(** C10. Fetching the logs only reads: in both copies of the server the
    handler makes no mutating call, and every document of the collection
    is as it was. *)
Theorem C10_get_logs_only_reads `{Runtime} (req : request) (db : gmap ObjectId user) :
  (store_after (try_catch (V1.get_logs req) db) = db /\
   read_only (calls_of (try_catch (V1.get_logs req) db)) = true) /\
  (store_after (try_catch (V2.get_logs req) db) = db /\
   read_only (calls_of (try_catch (V2.get_logs req) db)) = true).
Proof. split; [apply V1_get_logs_frame | apply V2_get_logs_frame]. Qed.

(** ** Creating a user *)

Section CreateUser.
Context `{Runtime}.

(** The first copy: an absent or blank username is refused and nothing is
    stored. *)
Lemma V1_post_users_blank (e : env) (req : request) (db : gmap ObjectId user) :
  body req !! "username" = None \/ JS.trim (str (body req !! "username")) = "" ->
  try_catch (V1.post_users e req) db
  = ({| status := 400; json := error_json "Username is required" |}, db, []).
Proof.
  intros Hb. unfold V1.post_users.
  assert (E : JS.trim (str (body req !! "username")) = "").
  { destruct Hb as [-> | E]; [reflexivity | exact E]. }
  rewrite E, orb_true_r. reflexivity.
Qed.

(** The first copy: a username that is not blank is stored trimmed, under
    the generated identifier. *)
Lemma V1_post_users_stored (e : env) (req : request) (db : gmap ObjectId user)
    (s : string) :
  body req !! "username" = Some s ->
  JS.trim s <> "" ->
  db !! fresh e = None ->
  let u := {| username := JS.trim s; log := [] |} in
  try_catch (V1.post_users e req) db
  = ({| status := 200;
        json := JObject [("username", JString (JS.trim s));
                         ("_id", JString (toHexString (fresh e)))] |},
     <[fresh e := u]> db, [InsertOne (fresh e) u])
  /\ trimmed (username u).
Proof.
  intros Hs Ht Hf u. split; [|apply trim_trimmed].
  unfold V1.post_users. rewrite Hs. simpl str.
  rewrite (truthy_Some s (not_blank_not_empty s Ht)).
  destruct (String.eqb_spec (JS.trim s) ""); [contradiction|]. simpl.
  unfold try_catch, save, new_User. io. simpl.
  destruct (String.eqb_spec (JS.trim s) ""); [contradiction|].
  now rewrite Hf.
Qed.

End CreateUser.

(** C1, on the second copy of the server. A username of two spaces is
    accepted with 201 and stored, and a username with spaces around it is
    stored with them: the handler tests the field for presence only and
    never trims it. *)
Theorem C1_second_copy_keeps_whitespace :
  JS.trim "  " = "" /\
  try_catch (@V2.post_users Fixture.utc Fixture.e0
               (mk_request "" [("username", "  ")] [])) ∅
  = ({| status := 201;
        json := JObject [("username", JString "  ");
                         ("_id", JString "000000000000000000000005")] |},
     {[ 5%N := {| username := "  "; log := [] |} ]},
     [InsertOne 5%N {| username := "  "; log := [] |}]) /\
  store_after (try_catch (@V2.post_users Fixture.utc Fixture.e0
                            (mk_request "" [("username", " bob ")] [])) ∅)
  = {[ 5%N := {| username := " bob "; log := [] |} ]} /\
  ~ trimmed " bob ".
Proof.
  repeat split; try (vm_compute; reflexivity).
  intros Ht. specialize (Ht " "%char (list_ascii_of_string "bob ") (or_introl eq_refl)).
  discriminate.
Qed.

(** ** Adding an exercise *)

(** C2. In the first copy, an add-exercise request whose description and
    duration are present and not empty is answered 400 when the user id is
    not a valid ObjectId and 404 when it is valid and no user has it; in
    neither case is the answer 500. *)
Theorem C2_bad_or_unknown_id `{Runtime} (e : env) (req : request)
    (db : gmap ObjectId user) :
  JS.truthy (body req !! "description") = true ->
  JS.truthy (body req !! "duration") = true ->
  let res := response_of (try_catch (V1.post_exercises e req) db) in
  (isValid (params__id req) = false -> status res = 400) /\
  (forall oid, castObjectId (params__id req) = Some oid -> db !! oid = None ->
               isValid (params__id req) = true /\ status res = 404) /\
  (isValid (params__id req) = false \/
   (exists oid, castObjectId (params__id req) = Some oid /\ db !! oid = None) ->
   status res <> 500).
Proof.
  intros Hd Hn res.
  assert (Ha : isValid (params__id req) = false -> status res = 400).
  { intros Hv. unfold res, V1.post_exercises. now rewrite Hd, Hn, Hv. }
  assert (Hb : forall oid, castObjectId (params__id req) = Some oid ->
                           db !! oid = None ->
                           isValid (params__id req) = true /\ status res = 404).
  { intros oid Ho Hu.
    assert (Hv : isValid (params__id req) = true) by (unfold isValid; now rewrite Ho).
    split; [exact Hv|].
    unfold res, V1.post_exercises. rewrite Hd, Hn, Hv. simpl. io.
    unfold try_catch. rewrite (findById_cast _ _ _ Ho), Hu. reflexivity. }
  split; [exact Ha|]. split; [exact Hb|].
  intros [Hv | (oid & Ho & Hu)].
  - rewrite (Ha Hv). discriminate.
  - destruct (Hb oid Ho Hu) as [_ ->]. discriminate.
Qed.

Lemma C2_bad_or_unknown_id_witness :
  let req := mk_request "64b7f0c2a1d3e4f5a6b7c8d9"
               [("description", "run"); ("duration", "30")] [] in
  let res := response_of (try_catch (@V1.post_exercises Fixture.utc Fixture.e0 req) ∅) in
  JS.truthy (body req !! "description") = true /\
  JS.truthy (body req !! "duration") = true /\
  @castObjectId Fixture.utc (params__id req) = Some Fixture.alice /\
  status res = 404 /\ status res <> 500.
Proof.
  intros req res.
  assert (Hd : JS.truthy (body req !! "description") = true) by (vm_compute; reflexivity).
  assert (Hn : JS.truthy (body req !! "duration") = true) by (vm_compute; reflexivity).
  assert (Ho : @castObjectId Fixture.utc (params__id req) = Some Fixture.alice)
    by (vm_compute; reflexivity).
  pose proof (@C2_bad_or_unknown_id Fixture.utc Fixture.e0 req ∅ Hd Hn) as (_ & Hb & Hc).
  split; [exact Hd|]. split; [exact Hn|]. split; [exact Ho|]. split.
  - exact (proj2 (Hb Fixture.alice Ho eq_refl)).
  - apply Hc. right. exists Fixture.alice. split; [exact Ho | reflexivity].
Defined.

(** ** Fetching the logs *)

Section Logs.
Context `{Runtime}.

Lemma V1_get_logs_found (req : request) (db : gmap ObjectId user)
    (oid : ObjectId) (u : user) :
  castObjectId (params__id req) = Some oid ->
  db !! oid = Some u ->
  try_catch (V1.get_logs req) db
  = ({| status := 200;
        json := V1_logs_json oid u
                  (V1.apply_limit (query req !! "limit")
                     (V1.filter_to (query req !! "to")
                        (V1.filter_from (query req !! "from") (log u)))) |},
     db, [FindById oid]).
Proof.
  intros Ho Hu. unfold V1.get_logs, isValid. rewrite Ho. simpl. io.
  unfold try_catch. rewrite (findById_cast _ _ _ Ho), Hu. reflexivity.
Qed.

Lemma V1_filter_from_invalid (s : string) (logs : list exercise) :
  new_Date s = JS.InvalidDate -> V1.filter_from (Some s) logs = logs.
Proof.
  intros E. unfold V1.filter_from. simpl str. rewrite E.
  now destruct (JS.truthy (Some s)).
Qed.

Lemma V1_filter_to_invalid (s : string) (logs : list exercise) :
  new_Date s = JS.InvalidDate -> V1.filter_to (Some s) logs = logs.
Proof.
  intros E. unfold V1.filter_to. simpl str. rewrite E.
  now destruct (JS.truthy (Some s)).
Qed.

Lemma V1_apply_limit_invalid (s : string) (logs : list exercise) :
  JS.parseInt s = JS.NaN -> V1.apply_limit (Some s) logs = logs.
Proof.
  intros E. unfold V1.apply_limit. simpl str. rewrite E. simpl.
  now rewrite andb_false_r.
Qed.

Lemma new_Date_valid_truthy (s : string) (tv : Z) :
  new_Date s = JS.DateOf tv -> JS.truthy (Some s) = true.
Proof.
  intros E. apply truthy_Some. intros ->.
  rewrite new_Date_empty in E. discriminate.
Qed.

Lemma V1_filter_from_valid (s : string) (tv : Z) (logs : list exercise) :
  new_Date s = JS.DateOf tv ->
  V1.filter_from (Some s) logs = List.filter (fun x => tv <=? date x) logs.
Proof.
  intros E. unfold V1.filter_from.
  rewrite (new_Date_valid_truthy _ _ E). simpl str. rewrite E. reflexivity.
Qed.

Lemma V1_filter_to_valid (s : string) (tv : Z) (logs : list exercise) :
  new_Date s = JS.DateOf tv ->
  V1.filter_to (Some s) logs = List.filter (fun x => date x <=? tv) logs.
Proof.
  intros E. unfold V1.filter_to.
  rewrite (new_Date_valid_truthy _ _ E). simpl str. rewrite E. reflexivity.
Qed.

Lemma filter_filter_and {A : Type} (p q : A -> bool) (l : list A) :
  List.filter q (List.filter p l) = List.filter (fun x => p x && q x) l.
Proof.
  induction l as [|a l IH]; simpl; [reflexivity|].
  destruct (p a); simpl; [|exact IH].
  destruct (q a); now rewrite IH.
Qed.

Lemma truncate_inject_Z (k : Z) : JS.truncate (inject_Z k) = k.
Proof. unfold JS.truncate. simpl. apply Z.quot_1_r. Qed.

Lemma slice0_firstn {A : Type} (l : list A) (k : Z) :
  0 <= k -> JS.slice0 l (JS.of_Z k) = firstn (Z.to_nat k) l.
Proof.
  intros Hk. unfold JS.slice0, JS.of_Z. rewrite truncate_inject_Z.
  destruct (Z.ltb_spec k 0); [lia|].
  destruct (Z.le_gt_cases k (Z.of_nat (length l))).
  - now rewrite Z.min_l.
  - rewrite Z.min_r, Nat2Z.id by lia.
    rewrite !firstn_all2; [reflexivity | lia | lia].
Qed.

Lemma V1_apply_limit_valid (s : string) (k : Z) (logs : list exercise) :
  JS.parseInt s = JS.of_Z k -> 0 <= k ->
  V1.apply_limit (Some s) logs = firstn (Z.to_nat k) logs.
Proof.
  intros E Hk. unfold V1.apply_limit. simpl str.
  assert (Hs : JS.truthy (Some s) = true).
  { apply truthy_Some. intros ->. rewrite parseInt_empty in E. discriminate. }
  rewrite Hs, E. simpl. now apply slice0_firstn.
Qed.

End Logs.

Section Lenient.
Context `{Runtime}.

Lemma query_set_eq (k v : string) (req : request) :
  query (set_query k v req) !! k = Some v.
Proof. unfold set_query. simpl. apply lookup_insert_eq. Qed.

Lemma query_set_ne (k k' v : string) (req : request) :
  k <> k' -> query (set_query k v req) !! k' = query req !! k'.
Proof. intros Hk. unfold set_query. simpl. now apply lookup_insert_ne. Qed.

Lemma query_unset_eq (k : string) (req : request) :
  query (unset_query k req) !! k = None.
Proof. unfold unset_query. simpl. apply lookup_delete_eq. Qed.

Lemma query_unset_ne (k k' : string) (req : request) :
  k <> k' -> query (unset_query k req) !! k' = query req !! k'.
Proof. intros Hk. unfold unset_query. simpl. now apply lookup_delete_ne. Qed.

Ltac same_logs :=
  unfold V1.get_logs, try_catch; io;
  change (params__id (set_query _ _ ?r)) with (params__id r);
  change (params__id (unset_query _ ?r)) with (params__id r);
  rewrite ?query_set_eq, ?query_unset_eq,
          ?query_set_ne, ?query_unset_ne by discriminate;
  destruct (isValid _); simpl; [|reflexivity];
  destruct (findById _ _) as [[[[d|]|m] db1] t]; try reflexivity.

(** The first copy: a [from], [to] or [limit] that does not parse is the
    same as none. *)
Lemma V1_get_logs_lenient (req : request) (db : gmap ObjectId user) (s : string) :
  (new_Date s = JS.InvalidDate ->
   try_catch (V1.get_logs (set_query "from" s req)) db
   = try_catch (V1.get_logs (unset_query "from" req)) db) /\
  (new_Date s = JS.InvalidDate ->
   try_catch (V1.get_logs (set_query "to" s req)) db
   = try_catch (V1.get_logs (unset_query "to" req)) db) /\
  (JS.parseInt s = JS.NaN ->
   try_catch (V1.get_logs (set_query "limit" s req)) db
   = try_catch (V1.get_logs (unset_query "limit" req)) db).
Proof.
  repeat split; intros E; same_logs.
  - now rewrite (V1_filter_from_invalid _ _ E).
  - now rewrite (V1_filter_to_invalid _ _ E).
  - now rewrite (V1_apply_limit_invalid _ _ E).
Qed.

End Lenient.

(** C3, on the second copy of the server. There a [from] or a [to] that is
    not a date, and a [limit] that is not a number, are not ignored: the
    filter compares every entry with an invalid date and keeps none, and
    the slice ends at index 0. The same requests without the value return
    the three entries. *)
Theorem C3_second_copy_drops_every_entry :
  let logs q :=
    json (response_of (try_catch (@V2.get_logs Fixture.utc
                                    (mk_request Fixture.alice_id [] q))
                                 Fixture.db1)) in
  @new_Date Fixture.utc "garbage" = JS.InvalidDate /\
  JS.Number "abc" = JS.NaN /\
  property "log" (logs []) = Some (JArray (map (@V2.format Fixture.utc)
                                             [Fixture.run; Fixture.swim; Fixture.row])) /\
  property "log" (logs [("from", "garbage")]) = Some (JArray []) /\
  property "log" (logs [("to", "garbage")]) = Some (JArray []) /\
  property "log" (logs [("limit", "abc")]) = Some (JArray []) /\
  property "count" (logs [("from", "garbage")]) = Some (JNumber (JS.of_Z 0)).
Proof. repeat split; vm_compute; reflexivity. Qed.

(** C4 as stated fails when the request also carries a limit: with all
    three entries inside the range and [limit=1], one entry is returned. *)
Lemma C4_limit_cuts_the_range :
  let req := mk_request Fixture.alice_id []
               [("from", "2023-01-01"); ("to", "2023-01-31"); ("limit", "1")] in
  @new_Date Fixture.utc "2023-01-01" = JS.DateOf 1672531200000 /\
  @new_Date Fixture.utc "2023-01-31" = JS.DateOf 1675123200000 /\
  List.filter (fun x => (1672531200000 <=? date x) && (date x <=? 1675123200000))
              [Fixture.run; Fixture.swim; Fixture.row]
  = [Fixture.run; Fixture.swim; Fixture.row] /\
  property "log" (json (response_of (try_catch (@V1.get_logs Fixture.utc req) Fixture.db1)))
  = Some (JArray [@V1.format Fixture.utc Fixture.run]) /\
  property "log" (json (response_of (try_catch (@V1.get_logs Fixture.utc req) Fixture.db1)))
  <> Some (JArray (map (@V1.format Fixture.utc) [Fixture.run; Fixture.swim; Fixture.row])).
Proof.
  intros req.
  split; [vm_compute; reflexivity|]. split; [vm_compute; reflexivity|].
  split; [vm_compute; reflexivity|]. split; [vm_compute; reflexivity|].
  vm_compute. discriminate.
Qed.

(** C4, amended. In the first copy, for an existing user, when [from] and
    [to] both parse to valid dates and no limit applies (the limit is
    absent, empty or not a number), the returned log is exactly the stored
    entries whose date is at or after [from] and at or before [to], in
    stored order, each in its response form. *)
Theorem C4_entries_within_the_range `{Runtime} (req : request)
    (db : gmap ObjectId user) (oid : ObjectId) (u : user)
    (sf st : string) (f t : Z) :
  castObjectId (params__id req) = Some oid ->
  db !! oid = Some u ->
  query req !! "from" = Some sf -> new_Date sf = JS.DateOf f ->
  query req !! "to" = Some st -> new_Date st = JS.DateOf t ->
  JS.parseInt (str (query req !! "limit")) = JS.NaN ->
  let kept := List.filter (fun x => (f <=? date x) && (date x <=? t)) (log u) in
  response_of (try_catch (V1.get_logs req) db)
  = {| status := 200; json := V1_logs_json oid u kept |} /\
  property "log" (V1_logs_json oid u kept) = Some (JArray (map V1.format kept)) /\
  sublist kept (log u).
Proof.
  intros Ho Hu Hf Ef Ht Et El kept.
  split; [|split; [reflexivity|]].
  - rewrite (V1_get_logs_found _ _ _ _ Ho Hu). unfold response_of. simpl.
    rewrite Hf, Ht, (V1_filter_from_valid _ _ _ Ef), (V1_filter_to_valid _ _ _ Et).
    rewrite filter_filter_and.
    assert (Hl : V1.apply_limit (query req !! "limit") kept = kept).
    { destruct (query req !! "limit") as [s|]; [|reflexivity].
      now apply V1_apply_limit_invalid. }
    fold kept. now rewrite Hl.
  - unfold kept. induction (log u) as [|x l IH]; simpl; [constructor|].
    destruct (_ && _); now constructor.
Qed.

Lemma C4_entries_within_the_range_witness :
  let req := mk_request Fixture.alice_id []
               [("from", "2023-01-12"); ("to", "2023-01-20")] in
  @castObjectId Fixture.utc (params__id req) = Some Fixture.alice /\
  Fixture.db1 !! Fixture.alice
  = Some {| username := "alice"; log := [Fixture.run; Fixture.swim; Fixture.row] |} /\
  @new_Date Fixture.utc "2023-01-12" = JS.DateOf 1673481600000 /\
  @new_Date Fixture.utc "2023-01-20" = JS.DateOf 1674172800000 /\
  property "log" (json (response_of (try_catch (@V1.get_logs Fixture.utc req) Fixture.db1)))
  = Some (JArray (map (@V1.format Fixture.utc) [Fixture.swim; Fixture.row])).
Proof.
  intros req.
  pose proof (@C4_entries_within_the_range Fixture.utc req Fixture.db1 Fixture.alice
                {| username := "alice"; log := [Fixture.run; Fixture.swim; Fixture.row] |}
                "2023-01-12" "2023-01-20" 1673481600000 1674172800000
                eq_refl eq_refl eq_refl eq_refl eq_refl eq_refl eq_refl) as (Hr & _ & _).
  split; [reflexivity|]. split; [reflexivity|].
  split; [reflexivity|]. split; [reflexivity|].
  rewrite Hr. reflexivity.
Defined.

(** C5. In the first copy, for an existing user, a limit that parses to an
    integer [k >= 0] makes the returned log the first [k] entries of the
    sequence left by the date filters (all of it when [k] is at least its
    length); and in every response of the logs handler that carries a log,
    [count] is the length of that log. *)
Theorem C5_first_k_and_count `{Runtime} (req : request) (db : gmap ObjectId user)
    (oid : ObjectId) (u : user) (s : string) (k : Z) :
  castObjectId (params__id req) = Some oid ->
  db !! oid = Some u ->
  query req !! "limit" = Some s ->
  JS.parseInt s = JS.of_Z k -> 0 <= k ->
  let filtered :=
    V1.filter_to (query req !! "to") (V1.filter_from (query req !! "from") (log u)) in
  response_of (try_catch (V1.get_logs req) db)
  = {| status := 200; json := V1_logs_json oid u (firstn (Z.to_nat k) filtered) |} /\
  property "log" (V1_logs_json oid u (firstn (Z.to_nat k) filtered))
  = Some (JArray (map V1.format (firstn (Z.to_nat k) filtered))) /\
  (Z.of_nat (length filtered) <= k -> firstn (Z.to_nat k) filtered = filtered) /\
  (forall req' db', count_matches (response_of (try_catch (V1.get_logs req') db'))).
Proof.
  intros Ho Hu Hl Ek Hk filtered.
  split; [|split; [reflexivity|split]].
  - rewrite (V1_get_logs_found _ _ _ _ Ho Hu). unfold response_of. simpl.
    rewrite Hl, (V1_apply_limit_valid _ _ _ Ek Hk). reflexivity.
  - intros Hlen. apply firstn_all2. lia.
  - intros req' db' l.
    unfold V1.get_logs, try_catch, response_of. io.
    destruct (isValid _); simpl; [|discriminate].
    destruct (findById _ _) as [[[[d|]|m] db1] t]; simpl; try discriminate.
    now intros [= <-].
Qed.

Lemma C5_first_k_and_count_witness :
  let req := mk_request Fixture.alice_id []
               [("from", "2023-01-12"); ("limit", "1")] in
  @castObjectId Fixture.utc (params__id req) = Some Fixture.alice /\
  JS.parseInt "1" = JS.of_Z 1 /\ 0 <= 1 /\
  property "log" (json (response_of (try_catch (@V1.get_logs Fixture.utc req) Fixture.db1)))
  = Some (JArray [@V1.format Fixture.utc Fixture.swim]) /\
  property "count" (json (response_of (try_catch (@V1.get_logs Fixture.utc req) Fixture.db1)))
  = Some (JNumber (JS.of_Z 1)).
Proof.
  intros req.
  assert (Hk : 0 <= 1) by lia.
  pose proof (@C5_first_k_and_count Fixture.utc req Fixture.db1 Fixture.alice
                {| username := "alice"; log := [Fixture.run; Fixture.swim; Fixture.row] |}
                "1" 1 eq_refl eq_refl eq_refl eq_refl Hk) as (Hr & _ & _ & Hc).
  split; [reflexivity|]. split; [reflexivity|]. split; [exact Hk|].
  split.
  - rewrite Hr. reflexivity.
  - apply (Hc req Fixture.db1 [@V1.format Fixture.utc Fixture.swim]).
    rewrite Hr. reflexivity.
Defined.

(** ** Adding an exercise: the date and the duration *)

Section AddExercise.
Context `{Runtime}.

Lemma V1_exercise_date_default (e : env) (date : option string) :
  date = None \/ JS.trim (str date) = "" ->
  V1.exercise_date e date = JS.DateOf (now e).
Proof.
  intros Hd. unfold V1.exercise_date.
  assert (E : JS.trim (str date) = "") by (destruct Hd as [-> | E]; [reflexivity | exact E]).
  rewrite E. simpl. now rewrite andb_false_r.
Qed.

Lemma V1_exercise_date_given (e : env) (s : string) :
  JS.trim s <> "" -> V1.exercise_date e (Some s) = new_Date s.
Proof.
  intros Hs. unfold V1.exercise_date.
  rewrite (truthy_Some s (not_blank_not_empty s Hs)). simpl str.
  now destruct (String.eqb_spec (JS.trim s) "").
Qed.

(** The object answered to a successful add-exercise request. *)
Lemma V1_post_exercises_found (e : env) (req : request) (db : gmap ObjectId user)
    (oid : ObjectId) (u : user) :
  JS.truthy (body req !! "description") = true ->
  JS.truthy (body req !! "duration") = true ->
  castObjectId (params__id req) = Some oid ->
  db !! oid = Some u ->
  try_catch (V1.post_exercises e req) db
  = match V1.exercise_date e (body req !! "date") with
    | JS.InvalidDate =>
        ({| status := 400; json := error_json "Invalid date format" |},
         db, [FindById oid])
    | JS.DateOf tv =>
        let o := {| o_description := str (body req !! "description");
                    o_duration := JS.parseInt (str (body req !! "duration"));
                    o_date := JS.DateOf tv |} in
        match save (push (hydrate oid u) o) db with
        | (Ok _, db', t) =>
            ({| status := 200; json := V1_exercise_json oid u o |},
             db', FindById oid :: t)
        | (Throw m, db', t) =>
            ({| status := 500; json := error_json m |}, db', FindById oid :: t)
        end
    end.
Proof.
  intros Hd Hn Ho Hu. unfold V1.post_exercises, isValid.
  rewrite Hd, Hn, Ho. simpl. io. unfold try_catch.
  rewrite (findById_cast _ _ _ Ho), Hu. simpl.
  destruct (V1.exercise_date e _) as [|tv]; simpl; [reflexivity|].
  destruct (save _ db) as [[[d|m] db'] t]; [|reflexivity].
  now rewrite app_nil_r.
Qed.

(** A valid date and a duration that starts with an integer: the entry is
    appended and the request answered 200. *)
Lemma V1_post_exercises_stored (e : env) (req : request) (db : gmap ObjectId user)
    (oid : ObjectId) (u : user) (tv k : Z) :
  JS.truthy (body req !! "description") = true ->
  JS.truthy (body req !! "duration") = true ->
  castObjectId (params__id req) = Some oid ->
  db !! oid = Some u ->
  username u <> "" ->
  V1.exercise_date e (body req !! "date") = JS.DateOf tv ->
  JS.parseInt (str (body req !! "duration")) = JS.of_Z k ->
  let x := {| description := str (body req !! "description");
              duration := JS.of_Z k; date := tv |} in
  let o := {| o_description := description x; o_duration := duration x;
              o_date := JS.DateOf tv |} in
  try_catch (V1.post_exercises e req) db
  = ({| status := 200; json := V1_exercise_json oid u o |},
     <[oid := {| username := username u; log := (log u ++ [x])%list |}]> db,
     [FindById oid; UpdateOne oid [x]]).
Proof.
  intros Hd Hn Ho Hu Hname Ed Ek x o.
  rewrite (V1_post_exercises_found _ _ _ _ _ Hd Hn Ho Hu), Ed, Ek.
  cbv zeta.
  rewrite (save_push oid u _ x db Hu Hname); [reflexivity|].
  unfold cast_exercise. simpl.
  subst x. destruct (truthy_inv _ Hd) as (sd & -> & Hsd). simpl.
  now destruct (String.eqb_spec sd "").
Qed.

(** What a 200 answer to an add-exercise request means. *)
Lemma V1_post_exercises_200 (e : env) (req : request) (db : gmap ObjectId user) :
  let r := try_catch (V1.post_exercises e req) db in
  status (response_of r) = 200 ->
  exists oid u tv k,
    castObjectId (params__id req) = Some oid /\
    db !! oid = Some u /\
    V1.exercise_date e (body req !! "date") = JS.DateOf tv /\
    JS.parseInt (str (body req !! "duration")) = JS.of_Z k /\
    let x := {| description := str (body req !! "description");
                duration := JS.of_Z k; date := tv |} in
    store_after r = <[oid := {| username := username u; log := (log u ++ [x])%list |}]> db /\
    json (response_of r)
    = V1_exercise_json oid u {| o_description := description x;
                                o_duration := duration x; o_date := JS.DateOf tv |}.
Proof.
  intros r Hs. subst r.
  destruct (JS.truthy (body req !! "description")) eqn:Hd;
    [|unfold V1.post_exercises in Hs; rewrite Hd in Hs; discriminate].
  destruct (JS.truthy (body req !! "duration")) eqn:Hn;
    [|unfold V1.post_exercises in Hs; rewrite Hd, Hn in Hs; discriminate].
  destruct (castObjectId (params__id req)) as [oid|] eqn:Ho;
    [|unfold V1.post_exercises, isValid in Hs; rewrite Hd, Hn, Ho in Hs; discriminate].
  destruct (db !! oid) as [u|] eqn:Hu.
  2:{ unfold V1.post_exercises, isValid, try_catch in Hs.
      rewrite Hd, Hn, Ho in Hs. simpl in Hs. io.
      rewrite (findById_cast _ _ _ Ho), Hu in Hs. discriminate. }
  rewrite (V1_post_exercises_found _ _ _ _ _ Hd Hn Ho Hu) in Hs |- *.
  destruct (V1.exercise_date e _) as [|tv] eqn:Ed; [discriminate|].
  cbv zeta in Hs |- *.
  destruct (parseInt_NaN_or_integer (str (body req !! "duration"))) as [En | [k Ek]].
  - rewrite En in Hs. rewrite save_push_invalid in Hs; [discriminate|].
    unfold cast_exercise. simpl. now destruct (String.eqb _ "").
  - exists oid, u, tv, k. rewrite Ek in Hs |- *.
    destruct (String.eqb_spec (username u) "") as [En|En].
    + unfold save, push, hydrate in Hs. simpl in Hs.
      rewrite En in Hs. discriminate.
    + destruct (truthy_inv _ Hd) as (sd & Esd & Hsd).
      erewrite save_push; eauto.
      * repeat split; (assumption || reflexivity).
      * unfold cast_exercise. rewrite Esd. simpl.
        now destruct (String.eqb_spec sd "").
Qed.


(** The first copy: with no date, or a blank one, the clock gives the date
    of the new entry; a date that is given and does not parse is refused
    with 400 and nothing is stored. *)
Lemma V1_date_default_and_refusal (e : env) (req : request) (db : gmap ObjectId user)
    (oid : ObjectId) (u : user) :
  JS.truthy (body req !! "description") = true ->
  JS.truthy (body req !! "duration") = true ->
  castObjectId (params__id req) = Some oid ->
  db !! oid = Some u ->
  let r := try_catch (V1.post_exercises e req) db in
  (body req !! "date" = None \/ JS.trim (str (body req !! "date")) = "" ->
   V1.exercise_date e (body req !! "date") = JS.DateOf (now e) /\
   (status (response_of r) = 200 ->
    exists x, date x = now e /\
      store_after r !! oid
      = Some {| username := username u; log := (log u ++ [x])%list |})) /\
  (forall s, body req !! "date" = Some s -> JS.trim s <> "" ->
             new_Date s = JS.InvalidDate ->
             r = ({| status := 400; json := error_json "Invalid date format" |},
                  db, [FindById oid])).
Proof.
  intros Hd Hn Ho Hu r. split.
  - intros Hb. pose proof (V1_exercise_date_default e _ Hb) as Ed.
    split; [exact Ed|]. intros Hs.
    destruct (V1_post_exercises_200 e req db Hs)
      as (oid' & u' & tv & k & Ho' & Hu' & Ed' & _ & Hst & _).
    rewrite Ho in Ho'. injection Ho' as <-.
    rewrite Hu in Hu'. injection Hu' as <-.
    rewrite Ed in Ed'. injection Ed' as <-.
    eexists. split; [|fold r in Hst; rewrite Hst; apply lookup_insert_eq].
    reflexivity.
  - intros s Es Hs Ei. unfold r.
    rewrite (V1_post_exercises_found _ _ _ _ _ Hd Hn Ho Hu), Es.
    now rewrite (V1_exercise_date_given e s Hs), Ei.
Qed.

End AddExercise.

(** C6, on the second copy of the server. A date that does not parse is
    not refused with 400: the invalid date goes into the pushed element,
    the save rejects it, and the answer is 500. A blank date is truthy, so
    it is parsed as well, instead of the clock being read. *)
Theorem C6_second_copy_answers_500 :
  let post date :=
    try_catch (@V2.post_exercises Fixture.utc Fixture.e0
                 (mk_request Fixture.alice_id
                    [("description", "run"); ("duration", "30"); ("date", date)] []))
              Fixture.db0 in
  @new_Date Fixture.utc "garbage" = JS.InvalidDate /\
  status (response_of (post "garbage")) = 500 /\
  store_after (post "garbage") = Fixture.db0 /\
  JS.trim "  " = "" /\
  @V2.exercise_date Fixture.utc Fixture.e0 (Some "  ") = JS.InvalidDate /\
  status (response_of (post "  ")) = 500 /\
  store_after (post "  ") = Fixture.db0.
Proof. repeat split; vm_compute; reflexivity. Qed.

(** C8, on the second copy of the server. The duration goes through
    [Number], not [parseInt]: a duration of 1.5 is answered 201 and stored
    as the fraction 3/2. *)
Theorem C8_second_copy_stores_a_fraction :
  let r :=
    try_catch (@V2.post_exercises Fixture.utc Fixture.e0
                 (mk_request Fixture.alice_id
                    [("description", "run"); ("duration", "1.5");
                     ("date", "2023-01-15")] []))
              Fixture.db0 in
  status (response_of r) = 201 /\
  property "duration" (json (response_of r)) = Some (JNumber (JS.Fin (Qmake 3 2))) /\
  store_after r !! Fixture.alice
  = Some {| username := "alice";
            log := [{| description := "run"; duration := JS.Fin (Qmake 3 2);
                       date := 1673740800000 |}] |} /\
  JS.is_integer (JS.Fin (Qmake 3 2)) = false.
Proof. repeat split; vm_compute; reflexivity. Qed.

(** ** The calendar of the concrete runtime *)

Section Calendar.
Import Node.

Lemma forall_below_spec (n : nat) (p : Z -> bool) :
  forall_below n p = true -> forall i, 0 <= i < Z.of_nat n -> p i = true.
Proof.
  induction n as [|k IH]; simpl; intros Hp i Hi; [lia|].
  apply andb_true_iff in Hp as [Hk Hr].
  destruct (Z.eq_dec i (Z.of_nat k)) as [->|]; [exact Hk|].
  apply IH; [exact Hr | lia].
Qed.

(** Checked by evaluation, one year of the era after the other. *)
Lemma era_checked : forall_below 400 era_ok = true.
Proof. vm_cast_no_check (eq_refl true). Qed.

Lemma era_roundtrip (yoe mp d : Z) :
  0 <= yoe < 400 -> 0 <= mp < 12 -> 1 <= d <= era_month_length yoe mp ->
  0 <= day_of_era yoe mp d < 146097 /\
  civil_of_era (day_of_era yoe mp d) = (yoe, mp, d).
Proof.
  intros Hy Hm Hd.
  pose proof (forall_below_spec _ _ era_checked yoe ltac:(lia)) as H1.
  unfold era_ok in H1.
  pose proof (forall_below_spec _ _ H1 mp ltac:(lia)) as H2. cbv beta in H2.
  pose proof (forall_below_spec _ _ H2 (d - 1) ltac:(lia)) as H3. cbv beta zeta in H3.
  replace (d - 1 + 1) with d in H3 by lia.
  destruct (civil_of_era (day_of_era yoe mp d)) as [[a b] c].
  repeat (apply andb_true_iff in H3 as [H3 ?]).
  split; [lia|]. f_equal; [f_equal|]; lia.
Qed.

Lemma leap_period (a k : Z) : leap (a + k * 400) = leap a.
Proof.
  unfold leap.
  replace ((a + k * 400) mod 4) with (a mod 4)
    by (rewrite <- (Z.mod_add a (k * 100) 4); [f_equal; lia | lia]).
  replace ((a + k * 400) mod 100) with (a mod 100)
    by (rewrite <- (Z.mod_add a (k * 4) 100); [f_equal; lia | lia]).
  replace ((a + k * 400) mod 400) with (a mod 400)
    by (rewrite <- (Z.mod_add a k 400); [f_equal; lia | lia]).
  reflexivity.
Qed.

Lemma civil_roundtrip (y m d : Z) :
  1 <= m <= 12 -> 1 <= d <= days_in_month y m ->
  civil_from_days (days_from_civil y m d) = (y, m, d).
Proof.
  intros Hm Hd. unfold days_from_civil, civil_from_days.
  set (y' := if m <=? 2 then y - 1 else y).
  set (era := y' / 400).
  set (yoe := y' - era * 400).
  set (mp := if 2 <? m then m - 3 else m + 9).
  assert (Hyoe : 0 <= yoe < 400).
  { unfold yoe, era. pose proof (Z.mod_pos_bound y' 400 ltac:(lia)).
    rewrite Z.mod_eq in H by lia. lia. }
  assert (Hmp : 0 <= mp < 12) by (unfold mp; destruct (Z.ltb_spec 2 m); lia).
  assert (Hlen : era_month_length yoe mp = days_in_month y m).
  { unfold era_month_length, mp, yoe, y'.
    destruct (Z.ltb_spec 2 m), (Z.leb_spec m 2); try lia.
    - destruct (Z.ltb_spec (m - 3) 10); [|lia].
      replace (m - 3 + 3) with m by lia.
      unfold days_in_month. destruct (Z.eqb_spec m 2); [lia|reflexivity].
    - destruct (Z.ltb_spec (m + 9) 10); [lia|].
      replace (m + 9 - 9) with m by lia.
      unfold days_in_month. destruct (Z.eqb_spec m 2); [|reflexivity].
      replace (y - 1 - era * 400 + 1) with (y + (- era) * 400) by lia.
      now rewrite leap_period. }
  destruct (era_roundtrip yoe mp d Hyoe Hmp ltac:(lia)) as [Hb Hc].
  set (doe := day_of_era yoe mp d) in *.
  replace (era * 146097 + doe - 719468 + 719468) with (doe + era * 146097) by lia.
  rewrite Z.div_add by lia. rewrite (Z.div_small doe) by lia. rewrite Z.add_0_l.
  replace (doe + era * 146097 - era * 146097) with doe by lia.
  rewrite Hc.
  unfold mp, yoe, y'.
  destruct (Z.ltb_spec 2 m), (Z.leb_spec m 2); try lia.
  - destruct (Z.ltb_spec (m - 3) 10); [|lia].
    destruct (Z.leb_spec (m - 3 + 3) 2); [lia|].
    f_equal; try f_equal; lia.
  - destruct (Z.ltb_spec (m + 9) 10); [lia|].
    destruct (Z.leb_spec (m + 9 - 9) 2); [|lia].
    f_equal; try f_equal; lia.
Qed.

Lemma digit_val_char (v : Z) :
  0 <= v < 10 -> JS.digit_val 10 (digit_char v) = Some v.
Proof.
  intros Hv.
  assert (E : v = 0 \/ v = 1 \/ v = 2 \/ v = 3 \/ v = 4 \/ v = 5 \/ v = 6
              \/ v = 7 \/ v = 8 \/ v = 9) by lia.
  repeat (destruct E as [-> | E]; [reflexivity|]). now subst.
Qed.

Lemma is_ws_digit_char (v : Z) : 0 <= v < 10 -> JS.is_ws (digit_char v) = false.
Proof.
  intros Hv.
  assert (E : v = 0 \/ v = 1 \/ v = 2 \/ v = 3 \/ v = 4 \/ v = 5 \/ v = 6
              \/ v = 7 \/ v = 8 \/ v = 9) by lia.
  repeat (destruct E as [-> | E]; [reflexivity|]). now subst.
Qed.

Lemma field_4 (y : Z) (rest : list ascii) :
  0 <= y <= 9999 -> field 4 (digits 10 4 y ++ rest) = Some (y, rest).
Proof.
  intros Hy. cbn [digits app]. unfold field. cbn [firstn skipn JS.span_digits].
  rewrite !digit_val_char by (apply Z.mod_pos_bound; lia).
  unfold JS.digits_value. cbn [firstn skipn JS.span_digits length Nat.eqb fold_left].
  do 2 f_equal.
  match goal with
  | |- fold_left ?f [?a; ?b; ?c; ?d] 0 = _ =>
      change (fold_left f [a; b; c; d] 0) with (f (f (f (f 0 a) b) c) d)
  end.
  cbv beta. Z.div_mod_to_equations. lia.
Qed.

Lemma field_2 (v : Z) (rest : list ascii) :
  0 <= v <= 99 -> field 2 (digits 10 2 v ++ rest) = Some (v, rest).
Proof.
  intros Hv. cbn [digits app]. unfold field. cbn [firstn skipn JS.span_digits].
  rewrite !digit_val_char by (apply Z.mod_pos_bound; lia).
  unfold JS.digits_value. cbn [firstn skipn JS.span_digits length Nat.eqb fold_left].
  do 2 f_equal.
  match goal with
  | |- fold_left ?f [?a; ?b] 0 = _ =>
      change (fold_left f [a; b] 0) with (f (f 0 a) b)
  end.
  cbv beta. Z.div_mod_to_equations. lia.
Qed.

Lemma days_in_month_le (y m : Z) : days_in_month y m <= 31.
Proof.
  unfold days_in_month.
  repeat match goal with |- context [if ?b then _ else _] => destruct b end; lia.
Qed.

Lemma days_from_civil_bound (y m d : Z) :
  0 <= y <= 9999 -> 1 <= m <= 12 -> 1 <= d <= 31 ->
  -1000000 <= days_from_civil y m d <= 4000000.
Proof.
  intros Hy Hm Hd. unfold days_from_civil, day_of_era.
  destruct (Z.leb_spec m 2), (Z.ltb_spec 2 m); try lia;
    Z.div_mod_to_equations; lia.
Qed.

Lemma new_Date_iso_date (tza y m d : Z) :
  0 <= y <= 9999 -> 1 <= m <= 12 -> 1 <= d <= 31 ->
  new_Date tza (iso_date y m d) = JS.DateOf (days_from_civil y m d * msPerDay).
Proof.
  intros Hy Hm Hd. unfold new_Date, iso_date.
  rewrite list_ascii_of_string_of_list_ascii.
  rewrite field_4 by lia. cbn [mbind option_bind].
  rewrite field_2 by lia. cbn [mbind option_bind].
  rewrite <- (app_nil_r (digits 10 2 d)), field_2 by lia. cbn [mbind option_bind].
  destruct (Z.leb_spec 1 m), (Z.leb_spec m 12), (Z.leb_spec 1 d), (Z.leb_spec d 31);
    try lia.
  cbn [andb]. unfold timeClip.
  pose proof (days_from_civil_bound y m d Hy Hm Hd) as Hb.
  destruct (Z.leb_spec (Z.abs (days_from_civil y m d * msPerDay)) 8640000000000000);
    [reflexivity|]. unfold msPerDay in *. lia.
Qed.

Lemma dateString_of_day (tza day : Z) :
  0 <= tza < msPerDay ->
  forall y m d, civil_from_days day = (y, m, d) ->
  dateString tza (day * msPerDay) = civilString (weekDay day) y m d.
Proof.
  intros Ht y m d E. unfold dateString.
  rewrite Z.div_add_l by (unfold msPerDay; lia).
  rewrite (Z.div_small tza) by lia. rewrite Z.add_0_r. now rewrite E.
Qed.

Lemma trim_iso_date (y m d : Z) : 0 <= y <= 9999 -> JS.trim (iso_date y m d) <> "".
Proof.
  intros Hy. unfold JS.trim, iso_date.
  rewrite list_ascii_of_string_of_list_ascii. cbn [digits app].
  assert (Hc : JS.is_ws (digit_char (y / 10 / 10 / 10 mod 10)) = false)
    by (apply is_ws_digit_char, Z.mod_pos_bound; lia).
  cbn [JS.trimStart_l]. rewrite Hc.
  match goal with
  | |- context [JS.trimEnd_l (?c :: ?r)] =>
      destruct (trimEnd_l_cons r c Hc) as [r' ->]
  end.
  discriminate.
Qed.

End Calendar.

(** ** The date of an added exercise, as the logs show it *)

Section RoundTrip.
Context `{Runtime}.

(** After a successful add-exercise request with a date that parses, the
    logs of the user end with an entry whose date is the rendering of the
    parsed instant, which is also the date of the answer to the request. *)
Lemma V1_added_date_in_logs (e : env) (req : request) (db : gmap ObjectId user)
    (oid : ObjectId) (s : string) (tv : Z) :
  status (response_of (try_catch (V1.post_exercises e req) db)) = 200 ->
  castObjectId (params__id req) = Some oid ->
  body req !! "date" = Some s -> JS.trim s <> "" -> new_Date s = JS.DateOf tv ->
  let added := try_catch (V1.post_exercises e req) db in
  let logs :=
    response_of (try_catch (V1.get_logs (mk_request (params__id req) [] []))
                           (store_after added)) in
  status logs = 200 /\
  (exists u x,
     db !! oid = Some u /\
     property "log" (json logs) = Some (JArray (map V1.format (log u) ++ [x])) /\
     property "date" x = Some (JString (dateString tv))) /\
  property "date" (json (response_of added)) = Some (JString (dateString tv)).
Proof.
  intros Hs Ho Es Hb Ed added logs.
  destruct (V1_post_exercises_200 e req db Hs)
    as (oid' & u & tv' & k & Ho' & Hu & Ed' & _ & Hst & Hj).
  rewrite Ho in Ho'. injection Ho' as <-.
  rewrite Es, (V1_exercise_date_given e s Hb), Ed in Ed'. injection Ed' as <-.
  fold added in Hst, Hj.
  set (x := {| description := str (body req !! "description");
               duration := JS.of_Z k; date := tv |}) in *.
  assert (Hl : store_after added !! oid
               = Some {| username := username u; log := (log u ++ [x])%list |})
    by (rewrite Hst; apply lookup_insert_eq).
  assert (El : logs = {| status := 200;
                         json := V1_logs_json oid {| username := username u;
                                                     log := (log u ++ [x])%list |}
                                   (log u ++ [x]) |}).
  { unfold logs.
    rewrite (V1_get_logs_found (mk_request (params__id req) [] [])
               (store_after added) oid _ Ho Hl).
    change (query (mk_request (params__id req) [] [])) with (∅ : gmap string string).
    now rewrite !lookup_empty. }
  split; [now rewrite El|]. split.
  - exists u, (V1.format x). split; [exact Hu|]. split.
    + rewrite El. simpl. now rewrite map_app.
    + reflexivity.
  - now rewrite Hj.
Qed.

End RoundTrip.

(** C7 as stated fails. On a server five hours west of UTC, the date
    [2023-01-15] is read as midnight UTC and shown as the local day,
    14 January; on a server on UTC, a time with an offset,
    [2023-01-15T22:00:00-05:00], is shown as 16 January. *)
Lemma C7_the_day_can_shift :
  let add R date :=
    try_catch (@V1.post_exercises R Fixture.e0
                 (mk_request Fixture.alice_id
                    [("description", "run"); ("duration", "30"); ("date", date)] []))
              Fixture.db0 in
  let logs R date :=
    response_of (try_catch (@V1.get_logs R (mk_request Fixture.alice_id [] []))
                           (store_after (add R date))) in
  let entry day :=
    JObject [("description", JString "run"); ("duration", JNumber (JS.of_Z 30));
             ("date", JString day)] in
  status (response_of (add Fixture.west "2023-01-15")) = 200 /\
  property "log" (json (logs Fixture.west "2023-01-15"))
  = Some (JArray [entry "Sat Jan 14 2023"]) /\
  status (response_of (add Fixture.utc "2023-01-15T22:00:00-05:00")) = 200 /\
  property "log" (json (logs Fixture.utc "2023-01-15T22:00:00-05:00"))
  = Some (JArray [entry "Mon Jan 16 2023"]) /\
  Node.civilString (Node.weekDay (Node.days_from_civil 2023 1 15)) 2023 1 15
  = "Sun Jan 15 2023".
Proof.
  intros add logs entry.
  split; [vm_compute; reflexivity|]. split; [vm_compute; reflexivity|].
  split; [vm_compute; reflexivity|]. split; vm_compute; reflexivity.
Qed.

(** C7, amended. In the first copy, after a successful add-exercise
    request that supplies a date string that parses, the logs of the user
    end with that entry, and its date is rendered as the calendar day, in
    the local time of the server, of the instant the string denotes: the
    same text as in the answer to the add-exercise request, whatever the
    clock says. Two instants of one local day are rendered alike. For a
    date alone, [YYYY-MM-DD], which is read as midnight UTC, the rendering
    is the day written in the string when the server is on UTC or east of
    it. *)
Theorem C7_logged_date_is_the_local_day `{Runtime} (e : env) (req : request)
    (db : gmap ObjectId user) (oid : ObjectId) (s : string) (tv : Z) :
  status (response_of (try_catch (V1.post_exercises e req) db)) = 200 ->
  castObjectId (params__id req) = Some oid ->
  body req !! "date" = Some s -> JS.trim s <> "" -> new_Date s = JS.DateOf tv ->
  let added := try_catch (V1.post_exercises e req) db in
  let logs :=
    response_of (try_catch (V1.get_logs (mk_request (params__id req) [] []))
                           (store_after added)) in
  (status logs = 200 /\
   (exists u x,
      db !! oid = Some u /\
      property "log" (json logs) = Some (JArray (map V1.format (log u) ++ [x])) /\
      property "date" x = Some (JString (dateString tv))) /\
   property "date" (json (response_of added)) = Some (JString (dateString tv))) /\
  (forall tza tv1 tv2,
     (tv1 + tza) / Node.msPerDay = (tv2 + tza) / Node.msPerDay ->
     Node.dateString tza tv1 = Node.dateString tza tv2) /\
  (forall tza y m d,
     0 <= tza < Node.msPerDay ->
     0 <= y <= 9999 -> 1 <= m <= 12 -> 1 <= d <= Node.days_in_month y m ->
     JS.trim (Node.iso_date y m d) <> "" /\
     exists tv',
       Node.new_Date tza (Node.iso_date y m d) = JS.DateOf tv' /\
       Node.dateString tza tv'
       = Node.civilString (Node.weekDay (Node.days_from_civil y m d)) y m d).
Proof.
  intros Hs Ho Es Hb Ed added logs.
  split; [exact (V1_added_date_in_logs e req db oid s tv Hs Ho Es Hb Ed)|].
  split.
  - intros tza tv1 tv2 E. unfold Node.dateString. now rewrite E.
  - intros tza y m d Ht Hy Hm Hd.
    pose proof (days_in_month_le y m) as Hle.
    split; [now apply trim_iso_date|].
    eexists. split; [apply new_Date_iso_date; lia|].
    apply dateString_of_day; [exact Ht|].
    now apply civil_roundtrip.
Qed.

Lemma C7_logged_date_is_the_local_day_witness :
  let req := mk_request Fixture.alice_id
               [("description", "run"); ("duration", "30"); ("date", "2023-01-15")] [] in
  let added := try_catch (@V1.post_exercises Fixture.utc Fixture.e0 req) Fixture.db0 in
  let logs :=
    response_of (try_catch (@V1.get_logs Fixture.utc (mk_request Fixture.alice_id [] []))
                           (store_after added)) in
  status (response_of added) = 200 /\
  @castObjectId Fixture.utc (params__id req) = Some Fixture.alice /\
  JS.trim "2023-01-15" <> "" /\
  @new_Date Fixture.utc "2023-01-15" = JS.DateOf 1673740800000 /\
  property "date" (json (response_of added)) = Some (JString "Sun Jan 15 2023") /\
  status logs = 200.
Proof.
  intros req added logs.
  assert (Hs : status (response_of added) = 200) by (vm_compute; reflexivity).
  assert (Hb : JS.trim "2023-01-15" <> "") by (vm_compute; discriminate).
  pose proof (@C7_logged_date_is_the_local_day Fixture.utc Fixture.e0 req Fixture.db0
                Fixture.alice "2023-01-15" 1673740800000
                Hs eq_refl eq_refl Hb eq_refl) as ((Hl & _ & Hd) & _ & _).
  split; [exact Hs|]. split; [reflexivity|]. split; [exact Hb|].
  split; [reflexivity|]. split; [exact Hd | exact Hl].
Defined.

(** ** The scenario of the contract, on the first copy

    Creating alice, adding a run of 30 minutes on 2023-01-15 and fetching
    the logs, on a server on UTC. *)
Example scenario_alice :
  let e := {| now := 1700000000000; fresh := Fixture.alice |} in
  let created :=
    try_catch (@V1.post_users Fixture.utc e (mk_request "" [("username", "alice")] [])) ∅ in
  let added :=
    try_catch (@V1.post_exercises Fixture.utc e
                 (mk_request Fixture.alice_id
                    [("description", "run"); ("duration", "30"); ("date", "2023-01-15")] []))
              (store_after created) in
  let logs :=
    try_catch (@V1.get_logs Fixture.utc (mk_request Fixture.alice_id [] []))
              (store_after added) in
  json (response_of created)
  = JObject [("username", JString "alice"); ("_id", JString Fixture.alice_id)] /\
  json (response_of added)
  = JObject [("_id", JString Fixture.alice_id); ("username", JString "alice");
             ("description", JString "run"); ("duration", JNumber (JS.of_Z 30));
             ("date", JString "Sun Jan 15 2023")] /\
  json (response_of logs)
  = JObject [("_id", JString Fixture.alice_id); ("username", JString "alice");
             ("count", JNumber (JS.of_Z 1));
             ("log", JArray [JObject [("description", JString "run");
                                      ("duration", JNumber (JS.of_Z 30));
                                      ("date", JString "Sun Jan 15 2023")]])].
Proof. repeat split; vm_compute; reflexivity. Qed.


(** * Further properties of the handlers *)

(** ** Creating and listing users *)

(** X1. In the first copy, a create-user request whose username is absent,
    empty or made of whitespace only is answered 400 with the message
    "Username is required"; the store is not called and nothing is
    stored. *)
Theorem X1_blank_username_is_refused `{Runtime} (e : env) (req : request)
    (db : gmap ObjectId user) :
  body req !! "username" = None \/ JS.trim (str (body req !! "username")) = "" ->
  try_catch (V1.post_users e req) db
  = ({| status := 400; json := error_json "Username is required" |}, db, []).
Proof. apply V1_post_users_blank. Qed.

Lemma X1_blank_username_is_refused_witness :
  JS.trim (str (body (mk_request "" [("username", "   ")] []) !! "username")) = "" /\
  try_catch (@V1.post_users Fixture.utc Fixture.e0
               (mk_request "" [("username", "   ")] [])) Fixture.db1
  = ({| status := 400; json := error_json "Username is required" |}, Fixture.db1, []).
Proof.
  assert (Hb : JS.trim (str (body (mk_request "" [("username", "   ")] [])
                               !! "username")) = "") by (vm_compute; reflexivity).
  split; [exact Hb|].
  exact (@X1_blank_username_is_refused Fixture.utc Fixture.e0 _ Fixture.db1
           (or_intror Hb)).
Defined.

(** X2. In the first copy, a create-user request whose username is not
    blank, with a generated identifier that is free, is answered 200 with
    the trimmed name and the identifier; exactly one document is inserted,
    under that identifier, with the trimmed name and an empty log; every
    other document is as it was and the collection has one document
    more. *)
Theorem X2_user_is_created `{Runtime} (e : env) (req : request)
    (db : gmap ObjectId user) (s : string) :
  body req !! "username" = Some s ->
  JS.trim s <> "" ->
  db !! fresh e = None ->
  let r := try_catch (V1.post_users e req) db in
  let u := {| username := JS.trim s; log := [] |} in
  response_of r
  = {| status := 200;
       json := JObject [("username", JString (JS.trim s));
                        ("_id", JString (toHexString (fresh e)))] |} /\
  calls_of r = [InsertOne (fresh e) u] /\
  store_after r !! fresh e = Some u /\
  (forall oid, oid <> fresh e -> store_after r !! oid = db !! oid) /\
  size (store_after r) = S (size db) /\
  trimmed (username u).
Proof.
  intros Hs Ht Hf r u.
  destruct (V1_post_users_stored e req db s Hs Ht Hf) as [Hr Htr].
  unfold r. rewrite Hr. unfold response_of, calls_of, store_after. simpl.
  split; [reflexivity|]. split; [reflexivity|].
  split; [apply lookup_insert_eq|].
  split; [intros oid Hne; now apply lookup_insert_ne|].
  split; [now apply map_size_insert_None | exact Htr].
Qed.

Lemma X2_user_is_created_witness :
  let req := mk_request "" [("username", " bob ")] [] in
  let r := try_catch (@V1.post_users Fixture.utc Fixture.e0 req) Fixture.db1 in
  body req !! "username" = Some " bob " /\
  JS.trim " bob " <> "" /\
  Fixture.db1 !! fresh Fixture.e0 = None /\
  store_after r !! fresh Fixture.e0 = Some {| username := "bob"; log := [] |} /\
  size (store_after r) = 2%nat.
Proof.
  intros req r.
  assert (Hs : body req !! "username" = Some " bob ") by (vm_compute; reflexivity).
  assert (Ht : JS.trim " bob " <> "") by (vm_compute; discriminate).
  assert (Hf : Fixture.db1 !! fresh Fixture.e0 = None) by (vm_compute; reflexivity).
  pose proof (@X2_user_is_created Fixture.utc Fixture.e0 req Fixture.db1 " bob "
                Hs Ht Hf) as (_ & _ & Hu & _ & Hn & _).
  split; [exact Hs|]. split; [exact Ht|]. split; [exact Hf|].
  split; [exact Hu | exact Hn].
Defined.

Section ListingFacts.
Context `{Runtime}.

Lemma find_enumerates (db : gmap ObjectId user) :
  exists users,
    Listing.find db = (Ok users, db, [Listing.Find ["username"; "_id"]]) /\
    NoDup (map Listing.p_id users) /\
    (forall oid name,
       In {| Listing.p_id := oid; Listing.p_username := name |} users <->
       exists u, db !! oid = Some u /\ username u = name) /\
    length users = size db.
Proof.
  eexists. split; [reflexivity|]. split; [|split].
  - rewrite map_map. simpl.
    change (map (fun x : ObjectId * user => x.1) (map_to_list db))
      with ((map_to_list db).*1).
    apply NoDup_fst_map_to_list.
  - intros oid name. rewrite in_map_iff. split.
    + intros ([k u] & E & Hin). simpl in E. injection E as <- <-.
      exists u. split; [|reflexivity].
      now apply elem_of_map_to_list, list_elem_of_In.
    + intros (u & Hu & <-). exists (oid, u). split; [reflexivity|].
      now apply list_elem_of_In, elem_of_map_to_list.
  - rewrite length_map. apply length_map_to_list.
Qed.

End ListingFacts.

(** X3. In the first copy, listing the users is answered 200 with one
    object [{username, _id}] for each document of the collection: the
    listed identifiers are pairwise distinct, a pair of identifier and name
    is listed exactly when a document is stored under that identifier with
    that name, the array is as long as the collection is large (empty for
    an empty collection), no object carries a log, the only store call is
    the find, and the collection is unchanged. *)
Theorem X3_users_are_listed `{Runtime} (db : gmap ObjectId user) :
  exists users,
    let items :=
      map (fun user => JObject [("username", JString (Listing.p_username user));
                                ("_id", JString (toHexString (Listing.p_id user)))])
          users in
    Listing.V1_get_users db
    = ({| status := 200; json := JArray items |},
       db, [Listing.Find ["username"; "_id"]]) /\
    NoDup (map Listing.p_id users) /\
    (forall oid name,
       In {| Listing.p_id := oid; Listing.p_username := name |} users <->
       exists u, db !! oid = Some u /\ username u = name) /\
    length items = size db /\
    (db = ∅ -> items = []) /\
    Forall (fun item => property "log" item = None) items.
Proof.
  destruct (find_enumerates db) as (users & Hf & Hn & Hm & Hl).
  exists users. intros items. unfold Listing.V1_get_users. rewrite Hf.
  split; [reflexivity|]. split; [exact Hn|]. split; [exact Hm|].
  split; [unfold items; now rewrite length_map|]. split.
  - intros ->. rewrite map_size_empty in Hl. now destruct users.
  - unfold items. apply Forall_forall. intros item Hin.
    apply list_elem_of_In, in_map_iff in Hin as (user & <- & _). reflexivity.
Qed.

(** X4. In the second copy, listing the users is answered 200 with the
    projected documents themselves, one for each document of the
    collection and as many as the collection is large, each with its
    identifier and username and without a log; the only store call is the
    find and the collection is unchanged. *)
Theorem X4_second_copy_lists_users `{Runtime} (db : gmap ObjectId user) :
  exists users,
    let items :=
      map (fun user => JObject [("_id", JString (toHexString (Listing.p_id user)));
                                ("username", JString (Listing.p_username user))])
          users in
    Listing.V2_get_users db
    = ({| status := 200; json := JArray items |},
       db, [Listing.Find ["username"; "_id"]]) /\
    NoDup (map Listing.p_id users) /\
    (forall oid name,
       In {| Listing.p_id := oid; Listing.p_username := name |} users <->
       exists u, db !! oid = Some u /\ username u = name) /\
    length items = size db /\
    Forall (fun item => property "log" item = None) items.
Proof.
  destruct (find_enumerates db) as (users & Hf & Hn & Hm & Hl).
  exists users. intros items. unfold Listing.V2_get_users. rewrite Hf.
  split; [reflexivity|]. split; [exact Hn|]. split; [exact Hm|].
  split; [unfold items; now rewrite length_map|].
  unfold items. apply Forall_forall. intros item Hin.
  apply list_elem_of_In, in_map_iff in Hin as (user & <- & _). reflexivity.
Qed.

(** X5. In the first copy, a user that has just been created is listed:
    after a successful create-user request, the list of users has one
    entry more than the collection had documents, and it holds the object
    with the trimmed username and the new identifier that the create-user
    request answered with; no other listed user has that identifier. *)
Theorem X5_created_user_is_listed `{Runtime} (e : env) (req : request)
    (db : gmap ObjectId user) (s : string) :
  body req !! "username" = Some s ->
  JS.trim s <> "" ->
  db !! fresh e = None ->
  let created := try_catch (V1.post_users e req) db in
  exists users,
    json (Listing.V1_get_users (store_after created)).1.1
    = JArray (map (fun user =>
                     JObject [("username", JString (Listing.p_username user));
                              ("_id", JString (toHexString (Listing.p_id user)))])
                  users) /\
    length users = S (size db) /\
    In (json (response_of created))
       (map (fun user =>
               JObject [("username", JString (Listing.p_username user));
                        ("_id", JString (toHexString (Listing.p_id user)))])
            users) /\
    (forall user, In user users -> Listing.p_id user = fresh e ->
                  user = {| Listing.p_id := fresh e;
                            Listing.p_username := JS.trim s |}) /\
    NoDup (map Listing.p_id users).
Proof.
  intros Hs Ht Hf created.
  destruct (V1_post_users_stored e req db s Hs Ht Hf) as [Hr _].
  destruct (find_enumerates (store_after created)) as (users & Hfind & Hn & Hm & Hl).
  exists users. unfold Listing.V1_get_users. rewrite Hfind.
  assert (Hst : store_after created
                = <[fresh e := {| username := JS.trim s; log := [] |}]> db)
    by (unfold created; now rewrite Hr).
  split; [reflexivity|]. split; [|split; [|split]].
  - rewrite Hl, Hst. now apply map_size_insert_None.
  - unfold created at 1. rewrite Hr. unfold response_of. simpl.
    apply in_map_iff.
    exists {| Listing.p_id := fresh e; Listing.p_username := JS.trim s |}.
    split; [reflexivity|]. apply Hm.
    exists {| username := JS.trim s; log := [] |}. split; [|reflexivity].
    rewrite Hst. apply lookup_insert_eq.
  - intros [oid name] Hin E. simpl in E. subst oid.
    apply Hm in Hin as (u & Hu & <-).
    rewrite Hst, lookup_insert_eq in Hu. now injection Hu as <-.
  - exact Hn.
Qed.

Lemma X5_created_user_is_listed_witness :
  let req := mk_request "" [("username", " bob ")] [] in
  let created := try_catch (@V1.post_users Fixture.utc Fixture.e0 req) Fixture.db1 in
  body req !! "username" = Some " bob " /\
  JS.trim " bob " <> "" /\
  Fixture.db1 !! fresh Fixture.e0 = None /\
  exists users,
    json (@Listing.V1_get_users Fixture.utc (store_after created)).1.1
    = JArray (map (fun user =>
                     JObject [("username", JString (Listing.p_username user));
                              ("_id", JString (@toHexString Fixture.utc (Listing.p_id user)))])
                  users) /\
    length users = 2%nat.
Proof.
  intros req created.
  assert (Hs : body req !! "username" = Some " bob ") by (vm_compute; reflexivity).
  assert (Ht : JS.trim " bob " <> "") by (vm_compute; discriminate).
  assert (Hf : Fixture.db1 !! fresh Fixture.e0 = None) by (vm_compute; reflexivity).
  destruct (@X5_created_user_is_listed Fixture.utc Fixture.e0 req Fixture.db1 " bob "
              Hs Ht Hf) as (users & Hj & Hl & _).
  split; [exact Hs|]. split; [exact Ht|]. split; [exact Hf|].
  exists users. split; [exact Hj | exact Hl].
Defined.

(** ** Adding exercises *)

(** X6. In both copies, an add-exercise request whose description or
    duration is absent or empty is answered 400 with the message
    "Description and duration are required" before anything else is
    looked at: whatever the user id, the store is not called. *)
Theorem X6_missing_fields_are_refused `{Runtime} (e : env) (req : request)
    (db : gmap ObjectId user) :
  JS.truthy (body req !! "description") = false \/
  JS.truthy (body req !! "duration") = false ->
  try_catch (V1.post_exercises e req) db
  = ({| status := 400; json := error_json "Description and duration are required" |},
     db, []) /\
  try_catch (V2.post_exercises e req) db
  = ({| status := 400; json := error_json "Description and duration are required" |},
     db, []).
Proof.
  intros Hm.
  assert (E : negb (JS.truthy (body req !! "description"))
              || negb (JS.truthy (body req !! "duration")) = true).
  { destruct Hm as [-> | ->]; [reflexivity | apply orb_true_r]. }
  unfold V1.post_exercises, V2.post_exercises. rewrite E. now split.
Qed.

Lemma X6_missing_fields_are_refused_witness :
  let req := mk_request "not-an-id" [("description", "run"); ("duration", "")] [] in
  JS.truthy (body req !! "duration") = false /\
  status (response_of (try_catch (@V1.post_exercises Fixture.utc Fixture.e0 req)
                                 Fixture.db1)) = 400 /\
  calls_of (try_catch (@V2.post_exercises Fixture.utc Fixture.e0 req) Fixture.db1) = [].
Proof.
  intros req.
  assert (Hd : JS.truthy (body req !! "duration") = false) by (vm_compute; reflexivity).
  destruct (@X6_missing_fields_are_refused Fixture.utc Fixture.e0 req Fixture.db1
              (or_intror Hd)) as [H1 H2].
  split; [exact Hd|]. split; [now rewrite H1 | now rewrite H2].
Defined.

Section AddExerciseMore.
Context `{Runtime}.

(** The whole outcome of an add-exercise request answered 200. *)
Lemma V1_post_exercises_200_outcome (e : env) (req : request)
    (db : gmap ObjectId user) :
  status (response_of (try_catch (V1.post_exercises e req) db)) = 200 ->
  exists oid u x,
    castObjectId (params__id req) = Some oid /\
    db !! oid = Some u /\
    cast_exercise (V1_exercise_obj e req) = Some x /\
    try_catch (V1.post_exercises e req) db
    = ({| status := 200; json := V1_exercise_json oid u (V1_exercise_obj e req) |},
       <[oid := {| username := username u; log := (log u ++ [x])%list |}]> db,
       [FindById oid; UpdateOne oid [x]]).
Proof.
  intros Hs.
  destruct (JS.truthy (body req !! "description")) eqn:Hd;
    [|unfold V1.post_exercises in Hs; rewrite Hd in Hs; discriminate].
  destruct (JS.truthy (body req !! "duration")) eqn:Hn;
    [|unfold V1.post_exercises in Hs; rewrite Hd, Hn in Hs; discriminate].
  destruct (V1_post_exercises_200 e req db Hs)
    as (oid & u & tv & k & Ho & Hu & Ed & Ek & _ & _).
  exists oid, u, {| description := str (body req !! "description");
                    duration := JS.of_Z k; date := tv |}.
  split; [exact Ho|]. split; [exact Hu|].
  assert (Hc : cast_exercise (V1_exercise_obj e req)
               = Some {| description := str (body req !! "description");
                         duration := JS.of_Z k; date := tv |}).
  { unfold cast_exercise, V1_exercise_obj. simpl. rewrite Ed, Ek.
    destruct (truthy_inv _ Hd) as (sd & -> & Hsd). simpl.
    now destruct (String.eqb_spec sd ""). }
  split; [exact Hc|].
  destruct (String.eqb_spec (username u) "") as [En|En].
  - rewrite (V1_post_exercises_found _ _ _ _ _ Hd Hn Ho Hu), Ed in Hs.
    cbv zeta in Hs. unfold save, push, hydrate in Hs. simpl in Hs.
    rewrite En in Hs. discriminate.
  - rewrite (V1_post_exercises_stored e req db oid u tv k Hd Hn Ho Hu En Ed Ek).
    unfold V1_exercise_obj. now rewrite Ed, Ek.
Qed.

End AddExerciseMore.

(** X7. In the first copy, an add-exercise request for an existing user,
    with a description and a valid (or defaulted) date, whose duration does
    not start with an integer is not refused as a validation error:
    [parseInt] gives NaN, the save rejects the element, and the answer is
    500; the user is read once and nothing is stored. *)
Theorem X7_non_numeric_duration_is_500 `{Runtime} (e : env) (req : request)
    (db : gmap ObjectId user) (oid : ObjectId) (u : user) (tv : Z) :
  JS.truthy (body req !! "description") = true ->
  JS.truthy (body req !! "duration") = true ->
  castObjectId (params__id req) = Some oid ->
  db !! oid = Some u ->
  V1.exercise_date e (body req !! "date") = JS.DateOf tv ->
  JS.parseInt (str (body req !! "duration")) = JS.NaN ->
  let r := try_catch (V1.post_exercises e req) db in
  status (response_of r) = 500 /\ store_after r = db /\ calls_of r = [FindById oid].
Proof.
  intros Hd Hn Ho Hu Ed En r. unfold r.
  rewrite (V1_post_exercises_found _ _ _ _ _ Hd Hn Ho Hu), Ed, En. cbv zeta.
  rewrite save_push_invalid; [now repeat split|].
  unfold cast_exercise. simpl. now destruct (String.eqb _ "").
Qed.

Lemma X7_non_numeric_duration_is_500_witness :
  let req := mk_request Fixture.alice_id
               [("description", "run"); ("duration", "half an hour")] [] in
  let r := try_catch (@V1.post_exercises Fixture.utc Fixture.e0 req) Fixture.db1 in
  JS.truthy (body req !! "description") = true /\
  JS.truthy (body req !! "duration") = true /\
  JS.parseInt "half an hour" = JS.NaN /\
  status (response_of r) = 500 /\ store_after r = Fixture.db1.
Proof.
  intros req r.
  assert (Hd : JS.truthy (body req !! "description") = true) by (vm_compute; reflexivity).
  assert (Hn : JS.truthy (body req !! "duration") = true) by (vm_compute; reflexivity).
  assert (En : JS.parseInt "half an hour" = JS.NaN) by (vm_compute; reflexivity).
  destruct (@X7_non_numeric_duration_is_500 Fixture.utc Fixture.e0 req Fixture.db1
              Fixture.alice
              {| username := "alice"; log := [Fixture.run; Fixture.swim; Fixture.row] |}
              (now Fixture.e0) Hd Hn eq_refl eq_refl eq_refl En) as (Hs & Hst & _).
  split; [exact Hd|]. split; [exact Hn|]. split; [exact En|].
  split; [exact Hs | exact Hst].
Defined.

(** X8. In the first copy, for an add-exercise request that has passed the
    checks of the fields, of the id and of the user: with no date, or a
    blank one, the date of the exercise is the reading of the clock, and a
    200 answer means the entry appended to the log of the user carries
    it; with a date that is given, not blank, and does not parse, the
    answer is 400 with "Invalid date format", the user has been read once
    and nothing is stored. *)
Theorem X8_date_defaults_or_is_refused `{Runtime} (e : env) (req : request)
    (db : gmap ObjectId user) (oid : ObjectId) (u : user) :
  JS.truthy (body req !! "description") = true ->
  JS.truthy (body req !! "duration") = true ->
  castObjectId (params__id req) = Some oid ->
  db !! oid = Some u ->
  let r := try_catch (V1.post_exercises e req) db in
  (body req !! "date" = None \/ JS.trim (str (body req !! "date")) = "" ->
   V1.exercise_date e (body req !! "date") = JS.DateOf (now e) /\
   (status (response_of r) = 200 ->
    exists x, date x = now e /\
      store_after r !! oid
      = Some {| username := username u; log := (log u ++ [x])%list |})) /\
  (forall s, body req !! "date" = Some s -> JS.trim s <> "" ->
             new_Date s = JS.InvalidDate ->
             r = ({| status := 400; json := error_json "Invalid date format" |},
                  db, [FindById oid])).
Proof. apply V1_date_default_and_refusal. Qed.

Lemma X8_date_defaults_or_is_refused_witness :
  let req := mk_request Fixture.alice_id
               [("description", "run"); ("duration", "30"); ("date", "  ")] [] in
  let r := try_catch (@V1.post_exercises Fixture.utc Fixture.e0 req) Fixture.db0 in
  JS.truthy (body req !! "description") = true /\
  JS.truthy (body req !! "duration") = true /\
  @castObjectId Fixture.utc (params__id req) = Some Fixture.alice /\
  JS.trim (str (body req !! "date")) = "" /\
  status (response_of r) = 200 /\
  exists x, date x = now Fixture.e0 /\
    store_after r !! Fixture.alice = Some {| username := "alice"; log := [x] |}.
Proof.
  intros req r.
  assert (Hd : JS.truthy (body req !! "description") = true) by (vm_compute; reflexivity).
  assert (Hn : JS.truthy (body req !! "duration") = true) by (vm_compute; reflexivity).
  assert (Hb : JS.trim (str (body req !! "date")) = "") by (vm_compute; reflexivity).
  assert (Hs : status (response_of r) = 200) by (vm_compute; reflexivity).
  destruct (@X8_date_defaults_or_is_refused Fixture.utc Fixture.e0 req Fixture.db0
              Fixture.alice {| username := "alice"; log := [] |}
              Hd Hn eq_refl eq_refl) as [Ha _].
  destruct (Ha (or_intror Hb)) as [_ Hx].
  split; [exact Hd|]. split; [exact Hn|]. split; [reflexivity|].
  split; [exact Hb|]. split; [exact Hs|]. exact (Hx Hs).
Defined.



(** X10. In the first copy, an add-exercise request answered 200 has read
    the user once and made one update: the log of that user is the log it
    had with one entry appended at the end, the entry the schema casts
    from the request; the username of the user, every other document and
    the size of the collection are as they were. *)
Theorem X10_add_appends_one_entry `{Runtime} (e : env) (req : request)
    (db : gmap ObjectId user) :
  let r := try_catch (V1.post_exercises e req) db in
  status (response_of r) = 200 ->
  exists oid u x,
    castObjectId (params__id req) = Some oid /\
    db !! oid = Some u /\
    cast_exercise (V1_exercise_obj e req) = Some x /\
    calls_of r = [FindById oid; UpdateOne oid [x]] /\
    store_after r !! oid
    = Some {| username := username u; log := (log u ++ [x])%list |} /\
    (forall oid', oid' <> oid -> store_after r !! oid' = db !! oid') /\
    size (store_after r) = size db.
Proof.
  intros r Hs.
  destruct (V1_post_exercises_200_outcome e req db Hs) as (oid & u & x & Ho & Hu & Hc & Hr).
  exists oid, u, x. unfold r. rewrite Hr. unfold calls_of, store_after. simpl.
  split; [exact Ho|]. split; [exact Hu|]. split; [exact Hc|].
  split; [reflexivity|]. split; [apply lookup_insert_eq|].
  split; [intros oid' Hne; now apply lookup_insert_ne|].
  rewrite <- (insert_id db oid u Hu) at 2.
  rewrite <- (insert_delete_eq db), <- (insert_delete_eq db oid u).
  now rewrite !map_size_insert_None by apply lookup_delete_eq.
Qed.

Lemma X10_add_appends_one_entry_witness :
  let req := mk_request Fixture.alice_id
               [("description", "walk"); ("duration", "10"); ("date", "2023-02-01")] [] in
  let r := try_catch (@V1.post_exercises Fixture.utc Fixture.e0 req) Fixture.db1 in
  status (response_of r) = 200 /\
  exists oid u x,
    Fixture.db1 !! oid = Some u /\
    store_after r !! oid
    = Some {| username := username u; log := (log u ++ [x])%list |} /\
    size (store_after r) = size Fixture.db1.
Proof.
  intros req r.
  assert (Hs : status (response_of r) = 200) by (vm_compute; reflexivity).
  destruct (@X10_add_appends_one_entry Fixture.utc Fixture.e0 req Fixture.db1 Hs)
    as (oid & u & x & _ & Hu & _ & _ & Hst & _ & Hsz).
  split; [exact Hs|]. exists oid, u, x.
  split; [exact Hu|]. split; [exact Hst | exact Hsz].
Defined.

(** X11. In the first copy, add-exercise requests for one user, made one
    after the other and all answered 200, leave the log of the user as it
    was with one entry per request appended, in the order of the requests:
    the log grows by exactly the number of requests. *)
Theorem X11_adds_in_sequence `{Runtime} (reqs : list (env * request))
    (db : gmap ObjectId user) (oid : ObjectId) (u : user) :
  db !! oid = Some u ->
  Forall (fun er => castObjectId (params__id er.2) = Some oid) reqs ->
  Forall (fun res => status res = 200) (run_all V1.post_exercises reqs db).1 ->
  exists entries,
    Forall2 (fun er x => cast_exercise (V1_exercise_obj er.1 er.2) = Some x)
            reqs entries /\
    (run_all V1.post_exercises reqs db).2 !! oid
    = Some {| username := username u; log := (log u ++ entries)%list |} /\
    length entries = length reqs.
Proof.
  revert db u. induction reqs as [|[e req] rest IH]; intros db u Hu Hid Hok.
  - exists []. simpl. rewrite app_nil_r. split; [constructor|].
    split; [now destruct u | reflexivity].
  - simpl in Hok |- *.
    destruct (run_all V1.post_exercises rest
                (store_after (try_catch (V1.post_exercises e req) db)))
      as [rs db'] eqn:Erun.
    simpl in Hok |- *.
    inversion Hok as [|? ? Hs Hrest]; subst.
    inversion Hid as [|? ? Ho Hid']; subst. simpl in Ho.
    destruct (V1_post_exercises_200_outcome e req db Hs)
      as (oid' & u' & x & Ho' & Hu' & Hc & Hr).
    rewrite Ho in Ho'. injection Ho' as <-.
    rewrite Hu in Hu'. injection Hu' as <-.
    set (u1 := {| username := username u; log := (log u ++ [x])%list |}) in *.
    assert (Hu1 : store_after (try_catch (V1.post_exercises e req) db) !! oid = Some u1)
      by (rewrite Hr; apply lookup_insert_eq).
    destruct (IH _ u1 Hu1 Hid') as (entries & Hf & Hl & Hn).
    { now rewrite Erun. }
    rewrite Erun in Hl. simpl in Hl.
    exists (x :: entries). split; [now constructor|].
    split; [|simpl; now rewrite Hn].
    rewrite Hl. unfold u1. simpl. now rewrite <- app_assoc.
Qed.

Lemma X11_adds_in_sequence_witness :
  let post d n t := (Fixture.e0,
                     mk_request Fixture.alice_id
                       [("description", d); ("duration", n); ("date", t)] []) in
  let reqs := [post "walk" "10" "2023-02-01"; post "bike" "50" "2023-01-02";
               post "yoga" "25" ""] in
  Fixture.db1 !! Fixture.alice
  = Some {| username := "alice"; log := [Fixture.run; Fixture.swim; Fixture.row] |} /\
  Forall (fun er => @castObjectId Fixture.utc (params__id er.2) = Some Fixture.alice)
         reqs /\
  Forall (fun res => status res = 200)
         (run_all (@V1.post_exercises Fixture.utc) reqs Fixture.db1).1 /\
  exists entries,
    (run_all (@V1.post_exercises Fixture.utc) reqs Fixture.db1).2 !! Fixture.alice
    = Some {| username := "alice";
              log := ([Fixture.run; Fixture.swim; Fixture.row] ++ entries)%list |} /\
    length entries = 3%nat.
Proof.
  intros post reqs.
  assert (Hid : Forall (fun er => @castObjectId Fixture.utc (params__id er.2)
                                  = Some Fixture.alice) reqs)
    by (repeat constructor).
  assert (Hok : Forall (fun res => status res = 200)
                       (run_all (@V1.post_exercises Fixture.utc) reqs Fixture.db1).1)
    by (vm_compute; repeat constructor).
  destruct (@X11_adds_in_sequence Fixture.utc reqs Fixture.db1 Fixture.alice
              {| username := "alice"; log := [Fixture.run; Fixture.swim; Fixture.row] |}
              eq_refl Hid Hok) as (entries & _ & Hl & Hn).
  split; [reflexivity|]. split; [exact Hid|]. split; [exact Hok|].
  exists entries. split; [exact Hl | exact Hn].
Defined.

(** ** Fetching the logs *)

(** X12. In the first copy, a [from] or a [to] that does not parse to a
    valid date, and a [limit] from which [parseInt] reads no integer, are
    the same as none: the whole outcome of the request (answer, store,
    calls) is the outcome of the request without the value. *)
Theorem X12_unparseable_values_are_ignored `{Runtime} (req : request)
    (db : gmap ObjectId user) (s : string) :
  (new_Date s = JS.InvalidDate ->
   try_catch (V1.get_logs (set_query "from" s req)) db
   = try_catch (V1.get_logs (unset_query "from" req)) db) /\
  (new_Date s = JS.InvalidDate ->
   try_catch (V1.get_logs (set_query "to" s req)) db
   = try_catch (V1.get_logs (unset_query "to" req)) db) /\
  (JS.parseInt s = JS.NaN ->
   try_catch (V1.get_logs (set_query "limit" s req)) db
   = try_catch (V1.get_logs (unset_query "limit" req)) db).
Proof. apply V1_get_logs_lenient. Qed.

Lemma X12_unparseable_values_are_ignored_witness :
  let req := mk_request Fixture.alice_id [] [("to", "2023-01-16")] in
  @new_Date Fixture.utc "yesterday" = JS.InvalidDate /\
  JS.parseInt "ten" = JS.NaN /\
  try_catch (@V1.get_logs Fixture.utc (set_query "from" "yesterday" req)) Fixture.db1
  = try_catch (@V1.get_logs Fixture.utc (unset_query "from" req)) Fixture.db1 /\
  try_catch (@V1.get_logs Fixture.utc (set_query "limit" "ten" req)) Fixture.db1
  = try_catch (@V1.get_logs Fixture.utc (unset_query "limit" req)) Fixture.db1.
Proof.
  intros req.
  assert (Ed : @new_Date Fixture.utc "yesterday" = JS.InvalidDate) by reflexivity.
  assert (En : JS.parseInt "ten" = JS.NaN) by reflexivity.
  destruct (@X12_unparseable_values_are_ignored Fixture.utc req Fixture.db1 "yesterday")
    as (Hf & _ & _).
  destruct (@X12_unparseable_values_are_ignored Fixture.utc req Fixture.db1 "ten")
    as (_ & _ & Hl).
  split; [exact Ed|]. split; [exact En|]. split; [exact (Hf Ed) | exact (Hl En)].
Defined.

Section LogsMore.
Context `{Runtime}.

Lemma V2_get_logs_found (req : request) (db : gmap ObjectId user)
    (oid : ObjectId) (u : user) :
  castObjectId (params__id req) = Some oid ->
  db !! oid = Some u ->
  try_catch (V2.get_logs req) db
  = ({| status := 200;
        json := JObject
                  [("_id", JString (toHexString oid));
                   ("username", JString (username u));
                   ("count", JNumber (JS.of_Z (Z.of_nat
                      (length (map V2.format (V2_selected req (log u)))))));
                   ("log", JArray (map V2.format (V2_selected req (log u))))] |},
     db, [FindById oid]).
Proof.
  intros Ho Hu. unfold V2.get_logs, isValid. rewrite Ho. simpl. io.
  unfold try_catch. rewrite (findById_cast _ _ _ Ho), Hu. reflexivity.
Qed.

Lemma get_logs_bad_id (req : request) (db : gmap ObjectId user) :
  castObjectId (params__id req) = None ->
  try_catch (V1.get_logs req) db
  = ({| status := 400; json := error_json "Invalid user ID format" |}, db, []) /\
  try_catch (V2.get_logs req) db
  = ({| status := 400; json := error_json "Invalid user ID format" |}, db, []).
Proof.
  intros Ho. unfold V1.get_logs, V2.get_logs, isValid. rewrite Ho. now split.
Qed.

Lemma get_logs_unknown_id (req : request) (db : gmap ObjectId user) (oid : ObjectId) :
  castObjectId (params__id req) = Some oid -> db !! oid = None ->
  try_catch (V1.get_logs req) db
  = ({| status := 404; json := error_json "User not found" |}, db, [FindById oid]) /\
  try_catch (V2.get_logs req) db
  = ({| status := 404; json := error_json "User not found" |}, db, [FindById oid]).
Proof.
  intros Ho Hu. unfold V1.get_logs, V2.get_logs, isValid, try_catch.
  rewrite Ho. simpl. io. now rewrite (findById_cast _ _ _ Ho), Hu.
Qed.

Lemma slice0_prefix {A : Type} (l : list A) (n : JS.number) :
  exists k, JS.slice0 l n = firstn k l.
Proof. unfold JS.slice0. eauto. Qed.

Lemma filter_is_sublist {A : Type} (p : A -> bool) (l : list A) :
  sublist (List.filter p l) l.
Proof.
  induction l as [|a l IH]; simpl; [constructor|].
  destruct (p a); now constructor.
Qed.

Lemma V1_selected_sublist (req : request) (logs : list exercise) :
  sublist (V1_selected req logs) logs.
Proof.
  unfold V1_selected, V1.apply_limit, V1.filter_to, V1.filter_from.
  repeat match goal with
         | |- context [if ?b then _ else _] => destruct b
         end;
    repeat match goal with
           | |- context [JS.slice0 ?l ?n] =>
               let k := fresh "k" in
               destruct (slice0_prefix l n) as [k ->]
           end;
    repeat first [ reflexivity
                 | apply filter_is_sublist
                 | etrans; [apply sublist_take|]
                 | etrans; [apply filter_is_sublist|] ].
Qed.

Lemma V2_selected_sublist (req : request) (logs : list exercise) :
  sublist (V2_selected req logs) logs.
Proof.
  unfold V2_selected, V2.apply_limit, V2.filter_to, V2.filter_from.
  repeat match goal with
         | |- context [if ?b then _ else _] => destruct b
         end;
    repeat match goal with
           | |- context [JS.slice0 ?l ?n] =>
               let k := fresh "k" in
               destruct (slice0_prefix l n) as [k ->]
           end;
    repeat first [ reflexivity
                 | apply filter_is_sublist
                 | etrans; [apply sublist_take|]
                 | etrans; [apply filter_is_sublist|] ].
Qed.

End LogsMore.

(** X13. In both copies, a logs request with a user id that is not a valid
    ObjectId is answered 400 with "Invalid user ID format" and the store is
    not called; with a valid id under which no user is stored it is
    answered 404 with "User not found" after one read. The query values
    play no part in either. *)
Theorem X13_logs_of_bad_or_unknown_id `{Runtime} (req : request)
    (db : gmap ObjectId user) :
  (castObjectId (params__id req) = None ->
   try_catch (V1.get_logs req) db
   = ({| status := 400; json := error_json "Invalid user ID format" |}, db, []) /\
   try_catch (V2.get_logs req) db
   = ({| status := 400; json := error_json "Invalid user ID format" |}, db, [])) /\
  (forall oid, castObjectId (params__id req) = Some oid -> db !! oid = None ->
   try_catch (V1.get_logs req) db
   = ({| status := 404; json := error_json "User not found" |}, db, [FindById oid]) /\
   try_catch (V2.get_logs req) db
   = ({| status := 404; json := error_json "User not found" |}, db, [FindById oid])).
Proof.
  split; [apply get_logs_bad_id | intros oid; apply get_logs_unknown_id].
Qed.

Lemma X13_logs_of_bad_or_unknown_id_witness :
  let bad := mk_request "42" [] [("limit", "1")] in
  let unknown := mk_request "000000000000000000000007" [] [("from", "never")] in
  @castObjectId Fixture.utc (params__id bad) = None /\
  @castObjectId Fixture.utc (params__id unknown) = Some 7%N /\
  Fixture.db1 !! 7%N = None /\
  status (response_of (try_catch (@V1.get_logs Fixture.utc bad) Fixture.db1)) = 400 /\
  status (response_of (try_catch (@V2.get_logs Fixture.utc unknown) Fixture.db1)) = 404.
Proof.
  intros bad unknown.
  destruct (@X13_logs_of_bad_or_unknown_id Fixture.utc bad Fixture.db1) as [Hb _].
  destruct (@X13_logs_of_bad_or_unknown_id Fixture.utc unknown Fixture.db1) as [_ Hu].
  destruct (Hb eq_refl) as [H1 _].
  destruct (Hu 7%N eq_refl eq_refl) as [_ H2].
  split; [reflexivity|]. split; [reflexivity|]. split; [reflexivity|].
  split; [now rewrite H1 | now rewrite H2].
Defined.

(** X14. In both copies, whatever the values of [from], [to] and [limit],
    a logs request for an existing user is answered 200 with the id and
    the username of that user, and the entries returned are entries of the
    stored log in stored order (a subsequence of it), so [count] is never
    more than the number of stored entries. *)
Theorem X14_logs_are_part_of_the_stored_log `{Runtime} (req : request)
    (db : gmap ObjectId user) (oid : ObjectId) (u : user) :
  castObjectId (params__id req) = Some oid ->
  db !! oid = Some u ->
  (exists sel,
     sublist sel (log u) /\
     response_of (try_catch (V1.get_logs req) db)
     = {| status := 200;
          json := JObject
                    [("_id", JString (toHexString oid));
                     ("username", JString (username u));
                     ("count", JNumber (JS.of_Z (Z.of_nat (length sel))));
                     ("log", JArray (map V1.format sel))] |} /\
     (length sel <= length (log u))%nat) /\
  (exists sel,
     sublist sel (log u) /\
     response_of (try_catch (V2.get_logs req) db)
     = {| status := 200;
          json := JObject
                    [("_id", JString (toHexString oid));
                     ("username", JString (username u));
                     ("count", JNumber (JS.of_Z (Z.of_nat (length sel))));
                     ("log", JArray (map V2.format sel))] |} /\
     (length sel <= length (log u))%nat).
Proof.
  intros Ho Hu. split.
  - exists (V1_selected req (log u)).
    pose proof (V1_selected_sublist req (log u)) as Hs.
    split; [exact Hs|]. split; [|now apply sublist_length].
    rewrite (V1_get_logs_found _ _ _ _ Ho Hu). unfold response_of, V1_logs_json.
    simpl. now rewrite length_map.
  - exists (V2_selected req (log u)).
    pose proof (V2_selected_sublist req (log u)) as Hs.
    split; [exact Hs|]. split; [|now apply sublist_length].
    rewrite (V2_get_logs_found _ _ _ _ Ho Hu). unfold response_of.
    simpl. now rewrite length_map.
Qed.

Lemma X14_logs_are_part_of_the_stored_log_witness :
  let req := mk_request Fixture.alice_id []
               [("from", "2023-01-12"); ("to", "bad"); ("limit", "-1")] in
  @castObjectId Fixture.utc (params__id req) = Some Fixture.alice /\
  exists sel,
    sublist sel [Fixture.run; Fixture.swim; Fixture.row] /\
    status (response_of (try_catch (@V1.get_logs Fixture.utc req) Fixture.db1)) = 200 /\
    property "log" (json (response_of (try_catch (@V1.get_logs Fixture.utc req)
                                                 Fixture.db1)))
    = Some (JArray (map (@V1.format Fixture.utc) sel)).
Proof.
  intros req.
  destruct (@X14_logs_are_part_of_the_stored_log Fixture.utc req Fixture.db1
              Fixture.alice
              {| username := "alice"; log := [Fixture.run; Fixture.swim; Fixture.row] |}
              eq_refl eq_refl) as [(sel & Hs & Hr & _) _].
  split; [reflexivity|]. exists sel. split; [exact Hs|].
  rewrite Hr. split; reflexivity.
Defined.

(** X15. In the first copy, a limit that parses to a negative integer
    [-n] counts from the end, as [slice] does: the returned log is the
    date-filtered sequence without its last [n] entries, and is empty when
    the sequence has [n] entries or fewer. *)
Theorem X15_negative_limit_drops_the_last `{Runtime} (req : request)
    (db : gmap ObjectId user) (oid : ObjectId) (u : user) (s : string) (n : nat) :
  castObjectId (params__id req) = Some oid ->
  db !! oid = Some u ->
  query req !! "limit" = Some s ->
  JS.parseInt s = JS.of_Z (- Z.of_nat n) -> (0 < n)%nat ->
  let filtered :=
    V1.filter_to (query req !! "to") (V1.filter_from (query req !! "from") (log u)) in
  response_of (try_catch (V1.get_logs req) db)
  = {| status := 200;
       json := V1_logs_json oid u (firstn (length filtered - n) filtered) |} /\
  ((length filtered <= n)%nat -> firstn (length filtered - n) filtered = []).
Proof.
  intros Ho Hu Hl Ek Hn filtered. split.
  - rewrite (V1_get_logs_found _ _ _ _ Ho Hu). unfold response_of. simpl.
    rewrite Hl. fold filtered. f_equal. f_equal.
    unfold V1.apply_limit. simpl str.
    assert (Hs : JS.truthy (Some s) = true).
    { apply truthy_Some. intros ->. rewrite parseInt_empty in Ek. discriminate. }
    rewrite Hs, Ek. simpl.
    unfold JS.slice0, JS.of_Z. rewrite truncate_inject_Z.
    destruct (Z.ltb_spec (- Z.of_nat n) 0); [|lia].
    f_equal. lia.
  - intros Hle. replace (length filtered - n)%nat with 0%nat by lia. reflexivity.
Qed.

Lemma X15_negative_limit_drops_the_last_witness :
  let req := mk_request Fixture.alice_id [] [("limit", "-1")] in
  @castObjectId Fixture.utc (params__id req) = Some Fixture.alice /\
  JS.parseInt "-1" = JS.of_Z (- Z.of_nat 1) /\ (0 < 1)%nat /\
  property "log" (json (response_of (try_catch (@V1.get_logs Fixture.utc req)
                                               Fixture.db1)))
  = Some (JArray (map (@V1.format Fixture.utc) [Fixture.run; Fixture.swim])).
Proof.
  intros req.
  assert (Hn : (0 < 1)%nat) by lia.
  destruct (@X15_negative_limit_drops_the_last Fixture.utc req Fixture.db1
              Fixture.alice
              {| username := "alice"; log := [Fixture.run; Fixture.swim; Fixture.row] |}
              "-1" 1%nat eq_refl eq_refl eq_refl eq_refl Hn) as [Hr _].
  split; [reflexivity|]. split; [reflexivity|]. split; [exact Hn|].
  rewrite Hr. reflexivity.
Defined.

(** ** The two copies side by side *)

Section Digits.

Lemma digit_is_decimal_char (c : ascii) (v : Z) :
  JS.digit_val 10 c = Some v ->
  In c ["0"; "1"; "2"; "3"; "4"; "5"; "6"; "7"; "8"; "9"]%char.
Proof.
  destruct c as [[] [] [] [] [] [] [] []]; vm_compute; intros E;
    first [discriminate | tauto].
Qed.

Lemma span_digits_all (l : list ascii) (ds : list Z) :
  JS.span_digits 10 l = (ds, []) ->
  Forall (fun c => exists v, JS.digit_val 10 c = Some v) l.
Proof.
  revert ds. induction l as [|c l IH]; intros ds E; [constructor|].
  simpl in E. destruct (JS.digit_val 10 c) as [v|] eqn:Ec; [|discriminate].
  destruct (JS.span_digits 10 l) as [ds' rest] eqn:El.
  injection E as <- ->. constructor; [eauto | eapply IH; reflexivity].
Qed.

Lemma trimEnd_l_digits (l : list ascii) :
  Forall (fun c => exists v, JS.digit_val 10 c = Some v) l -> JS.trimEnd_l l = l.
Proof.
  intros Hl. unfold JS.trimEnd_l.
  destruct (rev l) as [|c r] eqn:Er.
  - apply (f_equal (@rev ascii)) in Er. rewrite rev_involutive in Er. now subst.
  - assert (Hc : exists v, JS.digit_val 10 c = Some v).
    { rewrite Forall_forall in Hl. apply Hl, list_elem_of_In, in_rev.
      rewrite Er. now left. }
    destruct Hc as [v Hv]. simpl.
    assert (Hw : JS.is_ws c = false).
    { pose proof (digit_is_decimal_char c v Hv) as Hin. simpl in Hin.
      repeat (destruct Hin as [<- | Hin]; [reflexivity|]). contradiction. }
    rewrite Hw, <- Er. apply rev_involutive.
Qed.

(** On a string of decimal digits, [Number] and [parseInt] give the same
    integer. *)
Lemma Number_parseInt_digits (s : string) :
  decimal_digits s = true ->
  exists v, JS.Number s = JS.of_Z v /\ JS.parseInt s = JS.of_Z v.
Proof.
  unfold decimal_digits, JS.all_digits.
  destruct (JS.span_digits 10 (list_ascii_of_string s)) as [ds rest] eqn:Es.
  destruct ds as [|d ds]; [discriminate|].
  destruct rest; [|discriminate]. intros _.
  exists (JS.digits_value 10 (d :: ds)).
  pose proof (span_digits_all _ _ Es) as Hall.
  unfold JS.Number, JS.parseInt.
  rewrite (trimEnd_l_digits (JS.trimStart_l (list_ascii_of_string s))).
  2:{ destruct (list_ascii_of_string s) as [|c l]; [constructor|].
      inversion Hall as [|? ? [v Hv] _]; subst.
      pose proof (digit_is_decimal_char c v Hv) as Hin. simpl in Hin. simpl.
      repeat (destruct Hin as [<- | Hin]; [exact Hall|]). contradiction. }
  destruct (list_ascii_of_string s) as [|c1 l] eqn:El; [discriminate|].
  inversion Hall as [|? ? [v1 Hv1] Hl]; subst.
  pose proof (digit_is_decimal_char c1 v1 Hv1) as Hin1. simpl in Hin1.
  assert (Hsecond : forall c2 r, l = c2 :: r ->
            In c2 ["0"; "1"; "2"; "3"; "4"; "5"; "6"; "7"; "8"; "9"]%char).
  { intros c2 r ->. inversion Hl as [|? ? [v2 Hv2] _]; subst.
    exact (digit_is_decimal_char c2 v2 Hv2). }
  assert (Hq : forall z : Z,
            Qred (Qmult (inject_Z z) (JS.ten_pow (0 - Z.of_nat (@length Z []))))
            = inject_Z z).
  { intros z. unfold JS.ten_pow, inject_Z, Qmult. simpl.
    rewrite Z.mul_1_r. apply Qcanon.Qred_identity. simpl. apply Z.gcd_1_r. }
  assert (Hinf : forall c r, In c ["0"; "1"; "2"; "3"; "4"; "5"; "6"; "7"; "8"; "9"]%char ->
            String.eqb (string_of_list_ascii (c :: r)) "Infinity" = false).
  { intros c r Hin. simpl in Hin.
    repeat (destruct Hin as [<- | Hin]; [reflexivity|]). contradiction. }
  assert (Hdec : JS.unsigned_decimal (c1 :: l) = JS.of_Z (JS.digits_value 10 (d :: ds))).
  { unfold JS.unsigned_decimal. rewrite (Hinf c1 l Hin1), Es.
    rewrite app_nil_r. cbn [JS.exponent_part]. unfold JS.of_Z. now rewrite Hq. }
  assert (Hint : match fst (JS.span_digits 10 (c1 :: l)) with
                 | [] => JS.NaN
                 | ds0 => JS.of_Z (1 * JS.digits_value 10 ds0)
                 end = JS.of_Z (JS.digits_value 10 (d :: ds))).
  { rewrite Es. cbn [fst]. now rewrite Z.mul_1_l. }
  assert (Hstart : JS.trimStart_l (c1 :: l) = c1 :: l).
  { simpl in Hin1. simpl.
    repeat (destruct Hin1 as [<- | Hin1]; [reflexivity|]). contradiction. }
  rewrite Hstart.
  assert (Hgoal : forall A B : JS.number,
            A = JS.unsigned_decimal (c1 :: l) ->
            B = match fst (JS.span_digits 10 (c1 :: l)) with
                | [] => JS.NaN
                | ds0 => JS.of_Z (1 * JS.digits_value 10 ds0)
                end ->
            A = JS.of_Z (JS.digits_value 10 (d :: ds)) /\
            B = JS.of_Z (JS.digits_value 10 (d :: ds))).
  { intros A B -> ->. now rewrite Hdec, Hint. }
  clear Hdec Hint Hstart Hq Hinf Es Hall Hl Hv1.
  simpl in Hin1.
  destruct Hin1 as [<- | Hin1].
  - (* a leading zero: the next character is a digit, not a radix letter *)
    destruct l as [|c2 r]; [now apply Hgoal|].
    pose proof (Hsecond c2 r eq_refl) as Hin2. simpl in Hin2.
    repeat (destruct Hin2 as [<- | Hin2]; [now apply Hgoal|]).
    contradiction.
  - repeat (destruct Hin1 as [<- | Hin1]; [now apply Hgoal|]).
    contradiction.
Qed.

End Digits.

Section Alike.
Context `{Runtime}.

Lemma filters_alike (v : option string) (logs : list exercise) :
  (forall s, v = Some s -> s = "" \/ exists tv, new_Date s = JS.DateOf tv) ->
  V2.filter_from v logs = V1.filter_from v logs /\
  V2.filter_to v logs = V1.filter_to v logs.
Proof.
  intros Hv. unfold V2.filter_from, V1.filter_from, V2.filter_to, V1.filter_to.
  destruct v as [s|]; [|now split].
  destruct (Hv s eq_refl) as [-> | [tv E]]; [now split|].
  simpl str. rewrite E. simpl. now split.
Qed.

Lemma limits_alike (v : option string) (logs : list exercise) :
  (forall s, v = Some s -> s = "" \/ decimal_digits s = true) ->
  V2.apply_limit v logs = V1.apply_limit v logs.
Proof.
  intros Hv. unfold V2.apply_limit, V1.apply_limit.
  destruct v as [s|]; [|reflexivity].
  destruct (Hv s eq_refl) as [-> | Hd]; [reflexivity|].
  destruct (Number_parseInt_digits s Hd) as (k & En & Ep).
  simpl str. rewrite En, Ep. simpl. now rewrite andb_true_r.
Qed.

End Alike.

(** X16. The two copies of the logs handler select the same entries when
    every query value that is given is well formed: a [from] and a [to]
    that are absent, empty or parse to a valid date, and a [limit] that is
    absent, empty or a string of decimal digits. For an existing user both
    then answer 200 with the same [count]. *)
Theorem X16_copies_select_the_same_entries `{Runtime} (req : request)
    (db : gmap ObjectId user) (oid : ObjectId) (u : user) :
  castObjectId (params__id req) = Some oid ->
  db !! oid = Some u ->
  (forall s, query req !! "from" = Some s ->
             s = "" \/ exists tv, new_Date s = JS.DateOf tv) ->
  (forall s, query req !! "to" = Some s ->
             s = "" \/ exists tv, new_Date s = JS.DateOf tv) ->
  (forall s, query req !! "limit" = Some s -> s = "" \/ decimal_digits s = true) ->
  V2_selected req (log u) = V1_selected req (log u) /\
  status (response_of (try_catch (V2.get_logs req) db))
  = status (response_of (try_catch (V1.get_logs req) db)) /\
  property "count" (json (response_of (try_catch (V2.get_logs req) db)))
  = property "count" (json (response_of (try_catch (V1.get_logs req) db))).
Proof.
  intros Ho Hu Hf Ht Hl.
  assert (E : V2_selected req (log u) = V1_selected req (log u)).
  { unfold V2_selected, V1_selected.
    rewrite (limits_alike _ _ Hl).
    rewrite (proj2 (filters_alike _ _ Ht)), (proj1 (filters_alike _ _ Hf)).
    reflexivity. }
  split; [exact E|].
  rewrite (V2_get_logs_found _ _ _ _ Ho Hu), (V1_get_logs_found _ _ _ _ Ho Hu).
  unfold response_of, V1_logs_json. simpl. split; [reflexivity|].
  rewrite E. fold (V1_selected req (log u)). now rewrite !length_map.
Qed.

Lemma X16_copies_select_the_same_entries_witness :
  let req := mk_request Fixture.alice_id []
               [("from", "2023-01-12"); ("to", ""); ("limit", "1")] in
  @castObjectId Fixture.utc (params__id req) = Some Fixture.alice /\
  decimal_digits "1" = true /\
  @V2_selected Fixture.utc req [Fixture.run; Fixture.swim; Fixture.row]
  = @V1_selected Fixture.utc req [Fixture.run; Fixture.swim; Fixture.row] /\
  @V1_selected Fixture.utc req [Fixture.run; Fixture.swim; Fixture.row] = [Fixture.swim].
Proof.
  intros req.
  assert (Hf : forall s, query req !! "from" = Some s ->
                 s = "" \/ exists tv, @new_Date Fixture.utc s = JS.DateOf tv).
  { intros s E. vm_compute in E. injection E as <-. right. eexists. reflexivity. }
  assert (Ht : forall s, query req !! "to" = Some s ->
                 s = "" \/ exists tv, @new_Date Fixture.utc s = JS.DateOf tv).
  { intros s E. vm_compute in E. injection E as <-. now left. }
  assert (Hl : forall s, query req !! "limit" = Some s ->
                 s = "" \/ decimal_digits s = true).
  { intros s E. vm_compute in E. injection E as <-. now right. }
  destruct (@X16_copies_select_the_same_entries Fixture.utc req Fixture.db1
              Fixture.alice
              {| username := "alice"; log := [Fixture.run; Fixture.swim; Fixture.row] |}
              eq_refl eq_refl Hf Ht Hl) as (E & _ & _).
  split; [reflexivity|]. split; [reflexivity|]. split; [exact E | reflexivity].
Defined.

(** ** Requests that do not succeed, and the second copy *)

Section Unsuccessful.
Context `{Runtime}.

Lemma V2_post_exercises_found (e : env) (req : request) (db : gmap ObjectId user)
    (oid : ObjectId) (u : user) :
  JS.truthy (body req !! "description") = true ->
  JS.truthy (body req !! "duration") = true ->
  castObjectId (params__id req) = Some oid ->
  db !! oid = Some u ->
  try_catch (V2.post_exercises e req) db
  = match save (push (hydrate oid u) (V2_exercise_obj e req)) db with
    | (Ok _, db', t) =>
        ({| status := 201;
            json := V1_exercise_json oid u (V2_exercise_obj e req) |},
         db', FindById oid :: t)
    | (Throw m, db', t) =>
        ({| status := 500; json := error_json m |}, db', FindById oid :: t)
    end.
Proof.
  intros Hd Hn Ho Hu. unfold V2.post_exercises, isValid.
  rewrite Hd, Hn, Ho. simpl. io. unfold try_catch.
  rewrite (findById_cast _ _ _ Ho), Hu. simpl.
  fold (V2_exercise_obj e req).
  destruct (save _ db) as [[[d|m] db'] t]; [|reflexivity].
  now rewrite app_nil_r.
Qed.

Lemma V1_post_users_unsuccessful (e : env) (req : request) (db : gmap ObjectId user) :
  status (response_of (try_catch (V1.post_users e req) db)) <> 200 ->
  store_after (try_catch (V1.post_users e req) db) = db.
Proof.
  unfold V1.post_users, try_catch, response_of, store_after. io.
  destruct (_ || _); simpl; [reflexivity|].
  destruct (save _ db) as [[[d|m] db1] t] eqn:Es; simpl; [congruence|].
  intros _. exact (save_throw _ _ _ _ _ Es).
Qed.

Lemma V2_post_users_unsuccessful (e : env) (req : request) (db : gmap ObjectId user) :
  let r := try_catch (V2.post_users e req) db in
  (status (response_of r) <> 201 -> store_after r = db) /\
  (status (response_of r) = 400 \/ status (response_of r) = 404 ->
   read_only (calls_of r) = true).
Proof.
  unfold V2.post_users, try_catch, response_of, store_after, calls_of. io.
  destruct (negb _); simpl; [now split|].
  destruct (save _ db) as [[[d|m] db1] t] eqn:Es; simpl.
  - split; [congruence | intros [?|?]; discriminate].
  - split; [intros _; exact (save_throw _ _ _ _ _ Es) | intros [?|?]; discriminate].
Qed.

Lemma V1_post_exercises_unsuccessful (e : env) (req : request)
    (db : gmap ObjectId user) :
  status (response_of (try_catch (V1.post_exercises e req) db)) <> 200 ->
  store_after (try_catch (V1.post_exercises e req) db) = db.
Proof.
  unfold V1.post_exercises, try_catch, response_of, store_after. io.
  destruct (_ || _); simpl; [reflexivity|].
  destruct (isValid _) eqn:Ev; simpl; [|reflexivity].
  destruct (isValid_cast _ Ev) as [oid Eo].
  rewrite (findById_cast _ _ _ Eo).
  destruct (db !! oid) as [u|]; simpl; [|reflexivity].
  destruct (JS.isNaN _); simpl; [reflexivity|].
  destruct (save _ db) as [[[d|m] db1] t] eqn:Es; simpl; [congruence|].
  intros _. exact (save_throw _ _ _ _ _ Es).
Qed.

Lemma V2_post_exercises_unsuccessful (e : env) (req : request)
    (db : gmap ObjectId user) :
  let r := try_catch (V2.post_exercises e req) db in
  (status (response_of r) <> 201 -> store_after r = db) /\
  (status (response_of r) = 400 \/ status (response_of r) = 404 ->
   read_only (calls_of r) = true).
Proof.
  unfold V2.post_exercises, try_catch, response_of, store_after, calls_of. io.
  destruct (_ || _); simpl; [now split|].
  destruct (isValid _) eqn:Ev; simpl; [|now split].
  destruct (isValid_cast _ Ev) as [oid Eo].
  rewrite (findById_cast _ _ _ Eo).
  destruct (db !! oid) as [u|]; simpl; [|now split].
  destruct (save _ db) as [[[d|m] db1] t] eqn:Es; simpl.
  - split; [congruence | intros [?|?]; discriminate].
  - split; [intros _; exact (save_throw _ _ _ _ _ Es) | intros [?|?]; discriminate].
Qed.

End Unsuccessful.

(** X17. In both copies, a create-user or add-exercise request that is
    answered with anything but its success status (200 in the first copy,
    201 in the second), be it a refusal or a save that failed, leaves the
    collection as it was; and in the second copy, as in the first, a 400
    or 404 answer comes with no insert and no update among the store
    calls. *)
Theorem X17_unsuccessful_requests_store_nothing `{Runtime} (e : env)
    (req : request) (db : gmap ObjectId user) :
  (status (response_of (try_catch (V1.post_users e req) db)) <> 200 ->
   store_after (try_catch (V1.post_users e req) db) = db) /\
  (status (response_of (try_catch (V1.post_exercises e req) db)) <> 200 ->
   store_after (try_catch (V1.post_exercises e req) db) = db) /\
  (status (response_of (try_catch (V2.post_users e req) db)) <> 201 ->
   store_after (try_catch (V2.post_users e req) db) = db) /\
  (status (response_of (try_catch (V2.post_exercises e req) db)) <> 201 ->
   store_after (try_catch (V2.post_exercises e req) db) = db) /\
  (status (response_of (try_catch (V2.post_users e req) db)) = 400 \/
   status (response_of (try_catch (V2.post_users e req) db)) = 404 ->
   read_only (calls_of (try_catch (V2.post_users e req) db)) = true) /\
  (status (response_of (try_catch (V2.post_exercises e req) db)) = 400 \/
   status (response_of (try_catch (V2.post_exercises e req) db)) = 404 ->
   read_only (calls_of (try_catch (V2.post_exercises e req) db)) = true).
Proof.
  split; [apply V1_post_users_unsuccessful|].
  split; [apply V1_post_exercises_unsuccessful|].
  split; [apply V2_post_users_unsuccessful|].
  split; [apply V2_post_exercises_unsuccessful|].
  split; [apply V2_post_users_unsuccessful | apply V2_post_exercises_unsuccessful].
Qed.

Lemma X17_unsuccessful_requests_store_nothing_witness :
  let req := mk_request Fixture.alice_id
               [("username", "alice"); ("description", "run");
                ("duration", "soon"); ("date", "later")] [] in
  let e := {| now := 0; fresh := Fixture.alice |} in
  status (response_of (try_catch (@V1.post_users Fixture.utc e req) Fixture.db1)) = 500 /\
  store_after (try_catch (@V1.post_users Fixture.utc e req) Fixture.db1) = Fixture.db1 /\
  status (response_of (try_catch (@V2.post_exercises Fixture.utc e req) Fixture.db1)) = 500 /\
  store_after (try_catch (@V2.post_exercises Fixture.utc e req) Fixture.db1) = Fixture.db1.
Proof.
  intros req e.
  assert (H1 : status (response_of (try_catch (@V1.post_users Fixture.utc e req)
                                              Fixture.db1)) = 500)
    by (vm_compute; reflexivity).
  assert (H2 : status (response_of (try_catch (@V2.post_exercises Fixture.utc e req)
                                              Fixture.db1)) = 500)
    by (vm_compute; reflexivity).
  destruct (@X17_unsuccessful_requests_store_nothing Fixture.utc e req Fixture.db1)
    as (Ha & _ & _ & Hb & _).
  split; [exact H1|]. split; [apply Ha; rewrite H1; discriminate|].
  split; [exact H2|]. apply Hb. rewrite H2. discriminate.
Defined.

(** X18. In the second copy, an add-exercise request answered 201 has
    read the user once and made one update that appends one entry at the
    end of the log of that user: the entry the schema casts from the
    description, [Number(duration)] and the date, which is the reading of
    the clock when the date is absent or empty; every other document and
    the username are as they were. *)
Theorem X18_second_copy_appends_one_entry `{Runtime} (e : env) (req : request)
    (db : gmap ObjectId user) :
  let r := try_catch (V2.post_exercises e req) db in
  status (response_of r) = 201 ->
  exists oid u x,
    castObjectId (params__id req) = Some oid /\
    db !! oid = Some u /\
    cast_exercise (V2_exercise_obj e req) = Some x /\
    JS.Number (str (body req !! "duration")) = duration x /\
    (JS.truthy (body req !! "date") = false -> date x = now e) /\
    calls_of r = [FindById oid; UpdateOne oid [x]] /\
    store_after r !! oid
    = Some {| username := username u; log := (log u ++ [x])%list |} /\
    (forall oid', oid' <> oid -> store_after r !! oid' = db !! oid').
Proof.
  intros r Hs. subst r.
  destruct (JS.truthy (body req !! "description")) eqn:Hd;
    [|unfold V2.post_exercises in Hs; rewrite Hd in Hs; discriminate].
  destruct (JS.truthy (body req !! "duration")) eqn:Hn;
    [|unfold V2.post_exercises in Hs; rewrite Hd, Hn in Hs; discriminate].
  destruct (castObjectId (params__id req)) as [oid|] eqn:Ho;
    [|unfold V2.post_exercises, isValid in Hs; rewrite Hd, Hn, Ho in Hs; discriminate].
  destruct (db !! oid) as [u|] eqn:Hu.
  2:{ unfold V2.post_exercises, isValid, try_catch in Hs.
      rewrite Hd, Hn, Ho in Hs. simpl in Hs. io.
      rewrite (findById_cast _ _ _ Ho), Hu in Hs. discriminate. }
  rewrite (V2_post_exercises_found _ _ _ _ _ Hd Hn Ho Hu) in Hs |- *.
  destruct (cast_exercise (V2_exercise_obj e req)) as [x|] eqn:Hc.
  2:{ rewrite save_push_invalid in Hs by exact Hc. discriminate. }
  destruct (String.eqb_spec (username u) "") as [En|En].
  { unfold save, push, hydrate in Hs. simpl in Hs. rewrite En in Hs. discriminate. }
  rewrite (save_push oid u _ x db Hu En Hc).
  exists oid, u, x. unfold calls_of, store_after. simpl.
  split; [reflexivity|]. split; [exact Hu|]. split; [reflexivity|].
  assert (Hx : JS.Number (str (body req !! "duration")) = duration x /\
               (JS.truthy (body req !! "date") = false -> date x = now e)).
  { unfold cast_exercise, V2_exercise_obj, V2.exercise_date in Hc. simpl in Hc.
    destruct (String.eqb _ ""); [discriminate|].
    destruct (JS.Number _); [discriminate| |];
      destruct (JS.truthy (body req !! "date"));
      try destruct (new_Date _); try discriminate;
      injection Hc as <-; simpl; (split; [reflexivity|]);
      first [discriminate | reflexivity]. }
  split; [exact (proj1 Hx)|]. split; [exact (proj2 Hx)|].
  split; [reflexivity|]. split; [apply lookup_insert_eq|].
  intros oid' Hne. now apply lookup_insert_ne.
Qed.

Lemma X18_second_copy_appends_one_entry_witness :
  let req := mk_request Fixture.alice_id
               [("description", "walk"); ("duration", "7.5"); ("date", "")] [] in
  let r := try_catch (@V2.post_exercises Fixture.utc Fixture.e0 req) Fixture.db0 in
  status (response_of r) = 201 /\
  exists oid u x,
    Fixture.db0 !! oid = Some u /\
    JS.Number "7.5" = duration x /\
    store_after r !! oid
    = Some {| username := username u; log := (log u ++ [x])%list |}.
Proof.
  intros req r.
  assert (Hs : status (response_of r) = 201) by (vm_compute; reflexivity).
  destruct (@X18_second_copy_appends_one_entry Fixture.utc Fixture.e0 req Fixture.db0 Hs)
    as (oid & u & x & _ & Hu & _ & Hn & _ & _ & Hst & _).
  split; [exact Hs|]. exists oid, u, x.
  split; [exact Hu|]. split; [exact Hn | exact Hst].
Defined.

(** ** One bound only, and the logs of a new user *)

(** X19. In the first copy, for an existing user and with no limit
    applying: a [from] that parses, with a [to] that is absent or does not
    parse, returns exactly the stored entries dated at or after [from]; a
    [to] that parses, with a [from] that is absent or does not parse,
    returns exactly those dated at or before [to]; both bounds are
    inclusive. *)
Theorem X19_one_sided_range `{Runtime} (req : request) (db : gmap ObjectId user)
    (oid : ObjectId) (u : user) (s : string) (tv : Z) :
  castObjectId (params__id req) = Some oid ->
  db !! oid = Some u ->
  new_Date s = JS.DateOf tv ->
  JS.parseInt (str (query req !! "limit")) = JS.NaN ->
  (query req !! "from" = Some s ->
   new_Date (str (query req !! "to")) = JS.InvalidDate ->
   response_of (try_catch (V1.get_logs req) db)
   = {| status := 200;
        json := V1_logs_json oid u (List.filter (fun x => tv <=? date x) (log u)) |}) /\
  (query req !! "to" = Some s ->
   new_Date (str (query req !! "from")) = JS.InvalidDate ->
   response_of (try_catch (V1.get_logs req) db)
   = {| status := 200;
        json := V1_logs_json oid u (List.filter (fun x => date x <=? tv) (log u)) |}).
Proof.
  intros Ho Hu Ed El.
  assert (Hlim : forall logs, V1.apply_limit (query req !! "limit") logs = logs).
  { intros logs. destruct (query req !! "limit") as [l|]; [|reflexivity].
    now apply V1_apply_limit_invalid. }
  assert (Hoff : forall v logs, new_Date (str v) = JS.InvalidDate ->
                   V1.filter_from v logs = logs /\ V1.filter_to v logs = logs).
  { intros [v|] logs E; [|now split].
    split; [now apply V1_filter_from_invalid | now apply V1_filter_to_invalid]. }
  rewrite (V1_get_logs_found _ _ _ _ Ho Hu). unfold response_of. simpl.
  split; intros Es Ei.
  - rewrite Es, (V1_filter_from_valid _ _ _ Ed).
    now rewrite (proj2 (Hoff _ _ Ei)), Hlim.
  - rewrite Es, (proj1 (Hoff _ _ Ei)), (V1_filter_to_valid _ _ _ Ed).
    now rewrite Hlim.
Qed.

Lemma X19_one_sided_range_witness :
  let req := mk_request Fixture.alice_id [] [("from", "2023-01-15")] in
  @castObjectId Fixture.utc (params__id req) = Some Fixture.alice /\
  @new_Date Fixture.utc "2023-01-15" = JS.DateOf 1673740800000 /\
  JS.parseInt (str (query req !! "limit")) = JS.NaN /\
  property "log" (json (response_of (try_catch (@V1.get_logs Fixture.utc req)
                                               Fixture.db1)))
  = Some (JArray (map (@V1.format Fixture.utc) [Fixture.swim; Fixture.row])).
Proof.
  intros req.
  destruct (@X19_one_sided_range Fixture.utc req Fixture.db1 Fixture.alice
              {| username := "alice"; log := [Fixture.run; Fixture.swim; Fixture.row] |}
              "2023-01-15" 1673740800000 eq_refl eq_refl eq_refl eq_refl) as [Hf _].
  split; [reflexivity|]. split; [reflexivity|]. split; [reflexivity|].
  rewrite (Hf eq_refl eq_refl). reflexivity.
Defined.

(** X20. In the first copy, the identifier that a successful create-user
    request answers with addresses the new user: when the string form of
    the identifier casts back to it, a logs request with that string is
    answered 200 with the new identifier, the trimmed username, a count of
    0 and an empty log. *)
Theorem X20_new_user_has_an_empty_log `{Runtime} (e : env) (req : request)
    (db : gmap ObjectId user) (s : string) (q : list (string * string)) :
  body req !! "username" = Some s ->
  JS.trim s <> "" ->
  db !! fresh e = None ->
  castObjectId (toHexString (fresh e)) = Some (fresh e) ->
  let created := try_catch (V1.post_users e req) db in
  property "_id" (json (response_of created)) = Some (JString (toHexString (fresh e))) /\
  response_of (try_catch (V1.get_logs (mk_request (toHexString (fresh e)) [] q))
                         (store_after created))
  = {| status := 200;
       json := JObject [("_id", JString (toHexString (fresh e)));
                        ("username", JString (JS.trim s));
                        ("count", JNumber (JS.of_Z 0));
                        ("log", JArray [])] |}.
Proof.
  intros Hs Ht Hf Hround created.
  destruct (V1_post_users_stored e req db s Hs Ht Hf) as [Hr _].
  unfold created. rewrite Hr. unfold response_of at 1, store_after. simpl.
  split; [reflexivity|].
  rewrite (V1_get_logs_found (mk_request (toHexString (fresh e)) [] q) _
             (fresh e) {| username := JS.trim s; log := [] |} Hround
             (lookup_insert_eq _ _ _)).
  assert (E : V1_selected (mk_request (toHexString (fresh e)) [] q) [] = [])
    by apply sublist_nil_r, V1_selected_sublist.
  unfold V1_selected in E. cbn [log]. rewrite E. reflexivity.
Qed.

Lemma X20_new_user_has_an_empty_log_witness :
  let req := mk_request "" [("username", "carol")] [] in
  let e := {| now := 0; fresh := 9%N |} in
  let created := try_catch (@V1.post_users Fixture.utc e req) Fixture.db1 in
  body req !! "username" = Some "carol" /\
  JS.trim "carol" <> "" /\
  Fixture.db1 !! fresh e = None /\
  @castObjectId Fixture.utc (@toHexString Fixture.utc (fresh e)) = Some (fresh e) /\
  property "count"
    (json (response_of
             (try_catch (@V1.get_logs Fixture.utc
                           (mk_request "000000000000000000000009" []
                                       [("limit", "5")]))
                        (store_after created))))
  = Some (JNumber (JS.of_Z 0)).
Proof.
  intros req e created.
  assert (Hs : body req !! "username" = Some "carol") by (vm_compute; reflexivity).
  assert (Ht : JS.trim "carol" <> "") by (vm_compute; discriminate).
  assert (Hf : Fixture.db1 !! fresh e = None) by (vm_compute; reflexivity).
  assert (Hround : @castObjectId Fixture.utc (@toHexString Fixture.utc (fresh e))
                   = Some (fresh e)) by (vm_compute; reflexivity).
  destruct (@X20_new_user_has_an_empty_log Fixture.utc e req Fixture.db1 "carol"
              [("limit", "5")] Hs Ht Hf Hround) as [_ Hl].
  split; [exact Hs|]. split; [exact Ht|]. split; [exact Hf|]. split; [exact Hround|].
  change (mk_request "000000000000000000000009" [] [("limit", "5")])
    with (mk_request (@toHexString Fixture.utc (fresh e)) [] [("limit", "5")]).
  fold created in Hl. rewrite Hl. reflexivity.
Defined.
